(** * github-docs-extractor: the output-location computation of [bin/index.js]

    A shallow embedding of [computeOutputRoot] and [buildOutputLocation]
    together with the JavaScript string and array primitives they call,
    followed by the remote walk [fetchAllFiles], the address parser
    [parseRepoUrl] with the regular expressions it relies on, and the naming
    of the earlier variant of [extract].

    Modelling conventions.
    - A JavaScript string is a [string]; every primitive used by the two
      functions ([split], [replaceAll], [startsWith], [slice], [join]) works
      unit by unit and never interprets a unit, so the alphabet is immaterial.
    - A value of type [string | undefined] is an [option string], [None] being
      [undefined].  Array indexing [a[i]] is [nth_error a i], which yields
      [undefined] out of range exactly as JavaScript does.
    - [path.join] belongs to Node, not to the repository; [Path.join] follows
      the POSIX variant of Node's documented behaviour. *)

From Stdlib Require Import String Ascii List Bool Arith Lia.
Import ListNotations.
Open Scope list_scope.
Open Scope string_scope.

(** ** JavaScript primitives *)

Module Js.

(** [String.prototype.split] with a one-unit separator: the pieces between
    the occurrences of [sep], empty pieces included; never an empty array. *)
Fixpoint split (sep : ascii) (s : string) : list string :=
  match s with
  | EmptyString => [EmptyString]
  | String c rest =>
      if Ascii.eqb c sep then EmptyString :: split sep rest
      else match split sep rest with
           | piece :: pieces => String c piece :: pieces
           | [] => [String c EmptyString]
           end
  end.

(** [String.prototype.replaceAll] with a one-unit pattern and replacement. *)
Fixpoint replaceAll (pat rep : ascii) (s : string) : string :=
  match s with
  | EmptyString => EmptyString
  | String c rest =>
      String (if Ascii.eqb c pat then rep else c) (replaceAll pat rep rest)
  end.

(** [s.startsWith(p)]. *)
Definition startsWith (s p : string) : bool := String.prefix p s.

(** [s.slice(n)] for [n >= 0]: the string without its first [n] units. *)
Fixpoint slice (n : nat) (s : string) : string :=
  match n, s with
  | O, _ => s
  | S _, EmptyString => EmptyString
  | S m, String _ rest => slice m rest
  end.

(** [Array.prototype.join]. *)
Definition join (sep : string) (l : list string) : string :=
  String.concat sep l.

(** [Boolean(s)] on a string: only the empty string is falsy. *)
Definition truthyString (s : string) : bool := negb (s =? "").

(** Truthiness of a [string | undefined] value. *)
Definition truthy (v : option string) : bool :=
  match v with
  | Some s => truthyString s
  | None => false
  end.

(** Strict equality [===] between two [string | undefined] values. *)
Definition strictEq (a b : option string) : bool :=
  match a, b with
  | Some x, Some y => x =? y
  | None, None => true
  | _, _ => false
  end.

(** [a.slice(-n)]: the last [n] elements (all of them when there are fewer). *)
Definition sliceLast {A : Type} (n : nat) (l : list A) : list A :=
  skipn (List.length l - n) l.

(** [s.endsWith(suf)]: [suf] is [s] itself or ends one of its tails. *)
Fixpoint endsWith (s suf : string) : bool :=
  (s =? suf)
  || match s with
     | EmptyString => false
     | String _ rest => endsWith rest suf
     end.

End Js.

(** ** Node's [path.join] (POSIX flavour)

    Node documents [path.join] as gluing its non-empty arguments with the
    separator and normalizing the result: empty and single-dot segments
    disappear, a double-dot segment cancels the segment before it, a trailing
    separator is kept, and an empty result is written as a single dot. *)

Module Path.

(** One step of Node's [normalizeString], read segment by segment: [stack]
    holds the segments kept so far, last one first. *)
Definition pushSegment (allowAboveRoot : bool) (stack : list string)
    (seg : string) : list string :=
  if (seg =? "") || (seg =? ".") then stack
  else if seg =? ".." then
    match stack with
    | top :: below =>
        if top =? ".." then seg :: stack else below
    | [] => if allowAboveRoot then [seg] else []
    end
  else seg :: stack.

Definition normalizeString (allowAboveRoot : bool) (p : string) : string :=
  Js.join "/" (rev (fold_left (pushSegment allowAboveRoot)
                              (Js.split "/" p) [])).

Definition endsWithSlash (p : string) : bool :=
  match rev (list_ascii_of_string p) with
  | c :: _ => Ascii.eqb c "/"
  | [] => false
  end.

(** [path.posix.normalize]. *)
Definition normalize (p : string) : string :=
  if p =? "" then "."
  else
    let isAbsolute := Js.startsWith p "/" in
    let trailingSeparator := endsWithSlash p in
    let body := normalizeString (negb isAbsolute) p in
    if body =? "" then
      if isAbsolute then "/" else if trailingSeparator then "./" else "."
    else
      let body := if trailingSeparator then body ++ "/" else body in
      if isAbsolute then "/" ++ body else body.

(** [path.posix.join(a, b)]: empty arguments are skipped, the others are
    glued with a slash and the result is normalized. *)
Definition join (a b : string) : string :=
  match a =? "", b =? "" with
  | true, true => "."
  | true, false => normalize b
  | false, true => normalize a
  | false, false => normalize (a ++ "/" ++ b)
  end.

End Path.

(** ** The program *)

(** [const DOC_CONTAINER_NAMES = new Set(['doc', 'docs', 'documentation'])] *)
Definition DOC_CONTAINER_NAMES : list string := ["doc"; "docs"; "documentation"].

(** [DOC_CONTAINER_NAMES.has(v)]; the argument may be [undefined]. *)
Definition has_DOC_CONTAINER_NAMES (v : option string) : bool :=
  match v with
  | Some s => existsb (String.eqb s) DOC_CONTAINER_NAMES
  | None => false
  end.

(** [documentPath.split('/').filter(Boolean)] *)
Definition segmentsOf (documentPath : string) : list string :=
  filter Js.truthyString (Js.split "/" documentPath).

(** [computeOutputRoot], index.js lines 131-148. *)
Definition computeOutputRoot (documentPath : string) : option string :=
  let segments := segmentsOf documentPath in
  if Nat.eqb (List.length segments) 1 then
    if has_DOC_CONTAINER_NAMES (nth_error segments 0) then None
    else nth_error segments 0
  else
    let effectiveSegments :=
      if has_DOC_CONTAINER_NAMES (nth_error segments 0)
      then skipn 1 segments
      else segments in
    if Nat.eqb (List.length effectiveSegments) 1 then nth_error effectiveSegments 0
    else
      let lastTwo := Js.sliceLast 2 effectiveSegments in
      Some (Js.join "-" lastTwo).

Record OutputLocation : Type := mkOutputLocation {
  directory : string;
  filename : string
}.

(** Lines 65-68: the path relative to the documentation root, or the whole
    normalized path when it does not lie under [documentPath + "/"]. *)
Definition relativePathOf (filePath documentPath : string) : string :=
  let normalized := Js.replaceAll "\" "/" filePath in
  if Js.startsWith normalized (documentPath ++ "/")
  then Js.slice (String.length documentPath + 1) normalized
  else normalized.

(** Lines 71-79: the segments that make up the filename prefix; [parts] are
    the folder parts, after the base filename was popped. *)
Definition prefixPartsOf (outputRoot : option string) (parts : list string)
    : list string :=
  let prefixParts := [] in
  let prefixParts :=
    match outputRoot with
    | Some r => if Js.truthyString r then (prefixParts ++ [r])%list else prefixParts
    | None => prefixParts
    end in
  if Nat.ltb 0 (List.length parts)
     && negb (Js.truthy outputRoot
              && Js.strictEq (nth_error parts 0) outputRoot)
  then (prefixParts ++ parts)%list
  else prefixParts.

(** Lines 81-83. *)
Definition folderPrefixOf (prefixParts : list string) : string :=
  if Nat.ltb 0 (List.length prefixParts) then Js.join "-" prefixParts ++ "-" else "".

(** Lines 84-86. *)
Definition finalFilenameOf (folderPrefix filename : string) : string :=
  if Js.startsWith filename folderPrefix then filename
  else folderPrefix ++ filename.

(** Lines 87-89. *)
Definition directoryOf (outputRoot : option string) (outputDirectory : string)
    : string :=
  match outputRoot with
  | Some r => if Js.truthyString r then Path.join outputDirectory r
              else outputDirectory
  | None => outputDirectory
  end.

(** [buildOutputLocation], index.js lines 64-92.  [parts.pop()] removes and
    returns the last piece; [split] never returns an empty array, so the
    default of [last] is never used. *)
Definition buildOutputLocation (filePath documentPath : string)
    (outputRoot : option string) (outputDirectory : string) : OutputLocation :=
  let relativePath := relativePathOf filePath documentPath in
  let parts := Js.split "/" relativePath in
  let filename := last parts "" in
  let parts := removelast parts in
  let prefixParts := prefixPartsOf outputRoot parts in
  let folderPrefix := folderPrefixOf prefixParts in
  let finalFilename := finalFilenameOf folderPrefix filename in
  let directory := directoryOf outputRoot outputDirectory in
  {| directory := directory; filename := finalFilename |}.

(** [hasUnit c s]: the unit [c] occurs in [s]. *)
Fixpoint hasUnit (c : ascii) (s : string) : bool :=
  match s with
  | EmptyString => false
  | String d rest => Ascii.eqb d c || hasUnit c rest
  end.

(** A string made of [n] slashes. *)
Fixpoint slashes (n : nat) : string :=
  match n with
  | O => ""
  | S m => String "/" (slashes m)
  end.

(** [onlyUnit c s]: every unit of [s] is [c] (true of the empty string). *)
Fixpoint onlyUnit (c : ascii) (s : string) : bool :=
  match s with
  | EmptyString => true
  | String d rest => Ascii.eqb d c && onlyUnit c rest
  end.

(** ** The remote listing: [fetchAllFiles]

    The repository is taken as a fixed snapshot: [getContent] gives, for a
    path, what [octokit.repos.getContent] settles to.  Owner and repository
    are passed unchanged through the recursion and are left implicit.
    Warnings written with [console.warn] are recorded, oldest first, by the
    directory path they report. *)

(** An entry of a directory listing, with the three fields the program
    reads. *)
Record Item : Type := mkItem {
  item_type : string;
  item_name : string;
  item_path : string
}.

(** A thrown value; the program only ever inspects [error.status]. *)
Record JsError : Type := mkJsError {
  error_status : option nat;
  error_message : string
}.

(** What the request for a path settles to: an array of entries for a
    directory, some other value (a lone object for a file path, [undefined]),
    or a rejection. *)
Inductive Response : Type :=
| Listing (contents : list Item)
| NotIterable
| Rejected (error : JsError).

(** How a call ends. *)
Inductive Outcome (A : Type) : Type :=
| Returned (value : A)
| Threw (error : JsError).

Arguments Returned {A} value.
Arguments Threw {A} error.

(** What was written to the console during a call, oldest first, and how the
    call ended. *)
Definition Run (A : Type) : Type := (list string * Outcome A)%type.

(** [for (const item of contents)] over a value that is not iterable. *)
Definition notIterableError : JsError :=
  mkJsError None "TypeError: contents is not iterable".

(** [error.status === 404] *)
Definition statusIs404 (e : JsError) : bool :=
  match error_status e with
  | Some n => Nat.eqb n 404
  | None => false
  end.

(** [item.type === 'file' && (item.name.endsWith('.md') ||
    item.name.endsWith('.mdx'))] *)
Definition isMarkdownFile (item : Item) : bool :=
  (item_type item =? "file")
  && (Js.endsWith (item_name item) ".md" || Js.endsWith (item_name item) ".mdx").

(** The loop of [fetchAllFiles], lines 287-295; [recur] is the recursive call
    and [files] the array filled so far.  [None] stands for a recursive call
    that has not come back. *)
Fixpoint collectFiles (recur : string -> option (Run (list Item)))
    (contents : list Item) (files : list Item) : option (Run (list Item)) :=
  match contents with
  | [] => Some ([], Returned files)
  | item :: rest =>
      if item_type item =? "dir" then
        match recur (item_path item) with
        | None => None
        | Some (warned, Threw e) => Some (warned, Threw e)
        | Some (warned, Returned subFiles) =>
            match collectFiles recur rest (files ++ subFiles)%list with
            | None => None
            | Some (warned', outcome) => Some ((warned ++ warned')%list, outcome)
            end
        end
      else if isMarkdownFile item then
        collectFiles recur rest (files ++ [item])%list
      else collectFiles recur rest files
  end.

Section Remote.

Variable getContent : string -> Response.

(** [fetchAllFiles], index.js lines 282-307.  The recursion follows the
    remote tree, so it is bounded by [fuel]: [None] means the bound was too
    small for the call to come back. *)
Fixpoint fetchAllFiles (fuel : nat) (directoryPath : string)
    : option (Run (list Item)) :=
  match fuel with
  | O => None
  | S fuel' =>
      let attempt :=
        match getContent directoryPath with
        | Listing contents => collectFiles (fetchAllFiles fuel') contents []
        | NotIterable => Some ([], Threw notIterableError)
        | Rejected e => Some ([], Threw e)
        end in
      match attempt with
      | None => None
      | Some (warned, Returned files) => Some (warned, Returned files)
      | Some (warned, Threw e) =>
          if statusIs404 e
          then Some ((warned ++ [directoryPath])%list, Returned [])
          else Some (warned, Threw e)
      end
  end.

End Remote.

(** The request for [path] is rejected with status 404. *)
Definition notFound (getContent : string -> Response) (path : string) : Prop :=
  exists e, getContent path = Rejected e /\ statusIs404 e = true.

(** What every finished walk satisfies: each warning reports a path that was
    not found, returned entries are Markdown files, and a thrown error does
    not have status 404. *)
Definition wellBehaved (getContent : string -> Response)
    (run : Run (list Item)) : Prop :=
  (forall path, In path (fst run) -> notFound getContent path) /\
  match snd run with
  | Returned files => Forall (fun item => isMarkdownFile item = true) files
  | Threw e => statusIs404 e = false
  end.

(** A small repository used to exercise the walk: a documentation folder with
    a sub-folder, a folder that has vanished, and a path that is refused. *)
Definition sampleRepository (path : string) : Response :=
  if path =? "docs" then
    Listing [mkItem "file" "guide.md" "docs/guide.md";
             mkItem "file" "index.js" "docs/index.js";
             mkItem "dir" "api" "docs/api";
             mkItem "dir" "old" "docs/old";
             mkItem "symlink" "latest.md" "docs/latest.md"]
  else if path =? "docs/api" then
    Listing [mkItem "file" "getting-started.mdx" "docs/api/getting-started.mdx"]
  else if path =? "private" then
    Rejected (mkJsError (Some 403) "Forbidden")
  else if path =? "README.md" then NotIterable
  else Rejected (mkJsError (Some 404) "Not Found").

(** Nesting depth of the sample repository's directories. *)
Definition sampleDepth (path : string) : nat :=
  if path =? "docs" then 1 else 0.

(** ** Regular expressions

    The part of JavaScript's regular expressions that [parseRepoUrl] uses,
    with the backtracking order of the language: a greedy repetition tries to
    go on before it hands over to what follows, a lazy one hands over first.
    Every pattern of the program carries the flag [i], so literal text is
    compared after canonicalization. *)

Module Re.

Inductive Regex : Type :=
| AtStart
| AtEnd
| Text (t : string)
| OneOrMore (lazy : bool) (set : ascii -> bool)
| Optional (r : Regex)
| Group (n : nat) (r : Regex)
| Then (r1 r2 : Regex).

(** The captures recorded so far, the latest first. *)
Definition Captures : Type := list (nat * string).

(** [match[n]]: the text of the n-th group, [undefined] if it took no part. *)
Fixpoint capture (n : nat) (caps : Captures) : option string :=
  match caps with
  | [] => None
  | (m, text) :: older => if Nat.eqb m n then Some text else capture n older
  end.

(** Canonicalization under flag [i].  The literal text of the program's
    patterns is ASCII and no unit outside ASCII canonicalizes to an ASCII
    unit, so only the ASCII letters need to be folded. *)
Definition canonicalize (c : ascii) : ascii :=
  let n := nat_of_ascii c in
  if Nat.leb 97 n && Nat.leb n 122 then ascii_of_nat (n - 32) else c.

Definition sameLetter (c d : ascii) : bool :=
  Ascii.eqb (canonicalize c) (canonicalize d).

(** Match the literal text [t] at the head of [rest]; what is left after it. *)
Fixpoint matchText (t rest : string) : option string :=
  match t with
  | EmptyString => Some rest
  | String c t' =>
      match rest with
      | EmptyString => None
      | String d rest' => if sameLetter c d then matchText t' rest' else None
      end
  end.

(** The first [n] units of [s]. *)
Fixpoint take (n : nat) (s : string) : string :=
  match n, s with
  | O, _ => EmptyString
  | S _, EmptyString => EmptyString
  | S m, String c rest => String c (take m rest)
  end.

(** What remains to be matched: called with the index reached, the input
    from there on and the captures; answers with the end of the match. *)
Definition Continuation : Type :=
  nat -> string -> Captures -> option (nat * Captures).

Fixpoint matchOneOrMore (lazy : bool) (set : ascii -> bool) (k : Continuation)
    (index : nat) (rest : string) (caps : Captures) : option (nat * Captures) :=
  match rest with
  | EmptyString => None
  | String c rest' =>
      if set c then
        if lazy then
          match k (S index) rest' caps with
          | Some found => Some found
          | None => matchOneOrMore lazy set k (S index) rest' caps
          end
        else
          match matchOneOrMore lazy set k (S index) rest' caps with
          | Some found => Some found
          | None => k (S index) rest' caps
          end
      else None
  end.

Fixpoint matchRegex (r : Regex) (k : Continuation)
    (index : nat) (rest : string) (caps : Captures) : option (nat * Captures) :=
  match r with
  | AtStart => if Nat.eqb index 0 then k index rest caps else None
  | AtEnd =>
      match rest with
      | EmptyString => k index rest caps
      | String _ _ => None
      end
  | Text t =>
      match matchText t rest with
      | Some rest' => k (index + String.length t) rest' caps
      | None => None
      end
  | OneOrMore lazy set => matchOneOrMore lazy set k index rest caps
  | Optional r' =>
      match matchRegex r' k index rest caps with
      | Some found => Some found
      | None => k index rest caps
      end
  | Group n r' =>
      matchRegex r'
        (fun index' rest' caps' =>
           k index' rest' ((n, take (index' - index) rest) :: caps'))
        index rest caps
  | Then r1 r2 => matchRegex r1 (matchRegex r2 k) index rest caps
  end.

(** The whole pattern was matched. *)
Definition matched : Continuation := fun index _ caps => Some (index, caps).

(** Try the pattern at [index] and then at every later index. *)
Fixpoint execFrom (r : Regex) (index : nat) (rest : string)
    : option (nat * nat * Captures) :=
  match matchRegex r matched index rest [] with
  | Some (stop, caps) => Some (index, stop, caps)
  | None =>
      match rest with
      | EmptyString => None
      | String _ rest' => execFrom r (S index) rest'
      end
  end.

(** [s.match(r)] for a pattern without flag [g]: where the leftmost match
    starts and stops, and its captures; [None] is [null]. *)
Definition exec (r : Regex) (s : string) : option (nat * nat * Captures) :=
  execFrom r 0 s.

(** [s.replace(r, replacement)] for a pattern without flag [g] and a
    replacement without dollar signs. *)
Definition replace (r : Regex) (replacement s : string) : string :=
  match exec r s with
  | Some (start, stop, _) => take start s ++ replacement ++ Js.slice stop s
  | None => s
  end.

End Re.

(** ** [parseRepoUrl] *)

(** The class [[^/]]. *)
Definition notSlash (c : ascii) : bool := negb (Ascii.eqb c "/").

(** [/^https:\/\/github\.com\/([^/]+)\/([^/]+?)(?:\.git)?\/?$/i] *)
Definition httpsUrlPattern : Re.Regex :=
  Re.Then Re.AtStart
  (Re.Then (Re.Text "https://github.com/")
  (Re.Then (Re.Group 1 (Re.OneOrMore false notSlash))
  (Re.Then (Re.Text "/")
  (Re.Then (Re.Group 2 (Re.OneOrMore true notSlash))
  (Re.Then (Re.Optional (Re.Text ".git"))
  (Re.Then (Re.Optional (Re.Text "/"))
           Re.AtEnd)))))).

(** [/^git@github\.com:([^/]+)\/([^/]+?)(?:\.git)?$/i] *)
Definition sshUrlPattern : Re.Regex :=
  Re.Then Re.AtStart
  (Re.Then (Re.Text "git@github.com:")
  (Re.Then (Re.Group 1 (Re.OneOrMore false notSlash))
  (Re.Then (Re.Text "/")
  (Re.Then (Re.Group 2 (Re.OneOrMore true notSlash))
  (Re.Then (Re.Optional (Re.Text ".git"))
           Re.AtEnd))))).

(** [/\.git$/i] *)
Definition gitSuffixPattern : Re.Regex := Re.Then (Re.Text ".git") Re.AtEnd.

Record RepoInfo : Type := mkRepoInfo {
  owner : string;
  repo : string
}.

Definition invalidUrlMessage : string :=
  "Invalid GitHub repository URL. Expected format: https://github.com/owner/repo or git@github.com:owner/repo.git".

(** [parseRepoUrl], index.js lines 350-371.  The first component of the
    result is what was written with [console.error]. *)
Definition parseRepoUrl (url : string) : Run RepoInfo :=
  let found := Re.exec httpsUrlPattern url in
  let found :=
    match found with
    | Some _ => found
    | None => Re.exec sshUrlPattern url
    end in
  let failure : Run RepoInfo :=
    ([invalidUrlMessage], Threw (mkJsError None invalidUrlMessage)) in
  match found with
  | None => failure
  | Some (_, _, caps) =>
      match Re.capture 1 caps, Re.capture 2 caps with
      | Some group1, Some group2 =>
          if Js.truthyString group1 && Js.truthyString group2
          then ([], Returned {| owner := group1;
                                repo := Re.replace gitSuffixPattern "" group2 |})
          else failure
      | _, _ => failure
      end
  end.

(** [s] ends with a text that equals [suffix] up to the case of letters. *)
Fixpoint endsWithIgnoringCase (s suffix : string) : bool :=
  match Re.matchText suffix s with
  | Some EmptyString => true
  | _ =>
      match s with
      | EmptyString => false
      | String _ rest => endsWithIgnoringCase rest suffix
      end
  end.

(** ** The earlier naming scheme

    The second variant of [extract] kept in index.js names every file after
    its whole repository path and writes all files into one directory. *)

(** [file.path.replaceAll(/[/\\]/g, '-')], line 497. *)
Fixpoint legacyFlatten (path : string) : string :=
  match path with
  | EmptyString => EmptyString
  | String c rest =>
      String (if Ascii.eqb c "/" || Ascii.eqb c "\" then "-"%char else c)
             (legacyFlatten rest)
  end.

(** Line 498: the optional [--prefix] and a hyphen, then the flattened
    path. *)
Definition legacyFilename (prefix : option string) (path : string) : string :=
  match prefix with
  | Some p => if Js.truthyString p then p ++ "-" else ""
  | None => ""
  end ++ legacyFlatten path.

(** ** Sanity checks on concrete inputs *)

Example split_plain : Js.split "/" "a/b" = ["a"; "b"].
Proof. reflexivity. Qed.

Example split_empty : Js.split "/" "" = [""].
Proof. reflexivity. Qed.

Example split_edges : Js.split "/" "/a//b/" = [""; "a"; ""; "b"; ""].
Proof. reflexivity. Qed.

Example join_normalizes : Path.join "./output" "code" = "output/code".
Proof. reflexivity. Qed.

Example join_absolute : Path.join "/tmp/out/" "../x" = "/tmp/x".
Proof. reflexivity. Qed.

Example join_above_root : Path.join "a" "../../b" = "../b".
Proof. reflexivity. Qed.

Example root_three_docs : computeOutputRoot "react/three/docs" = Some "three-docs".
Proof. reflexivity. Qed.

(** ** Facts about the primitives *)

Section SplitFacts.

Variable sep : ascii.

Lemma split_not_nil (s : string) : Js.split sep s <> [].
Proof.
  destruct s as [|c rest]; simpl; [discriminate|].
  destruct (Ascii.eqb c sep); [discriminate|].
  destruct (Js.split sep rest); discriminate.
Qed.

(** Splitting commutes with gluing two strings by the separator. *)
Lemma split_glue (a b : string) :
  Js.split sep (a ++ String sep b) = (Js.split sep a ++ Js.split sep b)%list.
Proof.
  induction a as [|c a IH]; simpl.
  - now rewrite Ascii.eqb_refl.
  - destruct (Ascii.eqb c sep); [now rewrite IH|].
    rewrite IH. pose proof (split_not_nil a) as Hne.
    destruct (Js.split sep a); [contradiction|reflexivity].
Qed.

(** A string without the separator is its own single piece. *)
Lemma split_no_sep (s : string) :
  hasUnit sep s = false -> Js.split sep s = [s].
Proof.
  induction s as [|c s IH]; simpl; [reflexivity|].
  intros H. apply orb_false_iff in H as [Hc Hs].
  rewrite Hc, (IH Hs). reflexivity.
Qed.

(** No piece of a split contains the separator. *)
Lemma split_pieces_no_sep (s piece : string) :
  In piece (Js.split sep s) -> hasUnit sep piece = false.
Proof.
  revert piece. induction s as [|c s IH]; simpl; intros piece Hin.
  - destruct Hin as [<-|[]]. reflexivity.
  - destruct (Ascii.eqb c sep) eqn:Hc.
    + destruct Hin as [<-|Hin]; [reflexivity|now apply IH].
    + pose proof (split_not_nil s) as Hne.
      destruct (Js.split sep s) as [|p ps]; [contradiction|].
      destruct Hin as [<-|Hin].
      * simpl. rewrite Hc. apply IH. now left.
      * apply IH. now right.
Qed.

(** A unit absent from the string is absent from every piece. *)
Lemma split_pieces_no_unit (d : ascii) (s piece : string) :
  hasUnit d s = false ->
  In piece (Js.split sep s) -> hasUnit d piece = false.
Proof.
  revert piece. induction s as [|c s IH]; simpl; intros piece Hd Hin.
  - destruct Hin as [<-|[]]. reflexivity.
  - apply orb_false_iff in Hd as [Hc Hs].
    destruct (Ascii.eqb c sep).
    + destruct Hin as [<-|Hin]; [reflexivity|now apply IH].
    + pose proof (split_not_nil s) as Hne.
      destruct (Js.split sep s) as [|p ps]; [contradiction|].
      destruct Hin as [<-|Hin].
      * simpl. rewrite Hc. apply IH; [assumption|now left].
      * apply IH; [assumption|now right].
Qed.

End SplitFacts.

Lemma append_empty_r (s : string) : s ++ "" = s.
Proof. induction s as [|c s IH]; simpl; [reflexivity|now rewrite IH]. Qed.

Lemma truthyString_true (s : string) : Js.truthyString s = true <-> s <> "".
Proof.
  unfold Js.truthyString. rewrite negb_true_iff. apply String.eqb_neq.
Qed.

Lemma has_container_iff (s : string) :
  has_DOC_CONTAINER_NAMES (Some s) = true <-> In s DOC_CONTAINER_NAMES.
Proof.
  unfold has_DOC_CONTAINER_NAMES. rewrite existsb_exists. split.
  - intros [x [Hin Heq]]. apply String.eqb_eq in Heq. now subst.
  - intros Hin. exists s. split; [assumption|apply String.eqb_refl].
Qed.

Lemma has_container_false (s : string) :
  has_DOC_CONTAINER_NAMES (Some s) = false <-> ~ In s DOC_CONTAINER_NAMES.
Proof.
  rewrite <- has_container_iff. now destruct (has_DOC_CONTAINER_NAMES (Some s)).
Qed.

(** ** Segmentation *)

Lemma segmentsOf_glue (a b : string) :
  segmentsOf (a ++ String "/" b) = (segmentsOf a ++ segmentsOf b)%list.
Proof.
  unfold segmentsOf. now rewrite split_glue, filter_app.
Qed.

Lemma segmentsOf_leading_slash (p : string) :
  segmentsOf (String "/" p) = segmentsOf p.
Proof. reflexivity. Qed.

Lemma segmentsOf_slashes (n : nat) : segmentsOf (slashes n) = [].
Proof. induction n; [reflexivity|]. simpl slashes. now rewrite segmentsOf_leading_slash. Qed.

Lemma segmentsOf_slashes_left (n : nat) (p : string) :
  segmentsOf (slashes n ++ p) = segmentsOf p.
Proof. induction n; [reflexivity|]. simpl. now rewrite segmentsOf_leading_slash. Qed.

Lemma segmentsOf_slashes_right (n : nat) (p : string) :
  segmentsOf (p ++ slashes n) = segmentsOf p.
Proof.
  destruct n as [|n]; simpl slashes.
  - now rewrite append_empty_r.
  - now rewrite segmentsOf_glue, segmentsOf_slashes, app_nil_r.
Qed.

Lemma segmentsOf_only_slashes (p : string) :
  onlyUnit "/" p = true -> segmentsOf p = [].
Proof.
  induction p as [|c p IH]; simpl; [reflexivity|].
  intros H. apply andb_true_iff in H as [Hc Hp].
  apply Ascii.eqb_eq in Hc. subst c.
  rewrite segmentsOf_leading_slash. now apply IH.
Qed.

Lemma segmentsOf_no_slash (p : string) :
  p <> "" -> hasUnit "/" p = false -> segmentsOf p = [p].
Proof.
  intros Hne Hno. unfold segmentsOf. rewrite (split_no_sep _ _ Hno). simpl.
  apply truthyString_true in Hne. now rewrite Hne.
Qed.

(** The result of [computeOutputRoot] depends on the path through its
    segments only. *)
Lemma computeOutputRoot_by_segments (p q : string) :
  segmentsOf p = segmentsOf q -> computeOutputRoot p = computeOutputRoot q.
Proof. unfold computeOutputRoot. now intros ->. Qed.

Lemma sliceLast_two {A : Type} (front : list A) (a b : A) :
  Js.sliceLast 2 (front ++ [a; b]) = [a; b].
Proof.
  unfold Js.sliceLast. rewrite length_app. simpl List.length.
  replace (List.length front + 2 - 2) with (List.length front) by lia.
  rewrite skipn_app, skipn_all, Nat.sub_diag. reflexivity.
Qed.

(** ** Claims about [computeOutputRoot] *)

(** C1. After segmentation, [computeOutputRoot] follows the documented
    algorithm: a single segment that is one of doc, docs, documentation gives
    [undefined], any other single segment is returned as it is; with two or
    more segments a leading container segment is dropped, a single remaining
    segment is returned as it is, and otherwise the last two effective
    segments are joined by one hyphen, in their original order.  The literal
    scenarios of the documentation hold. *)
Theorem computeOutputRoot_algorithm :
  (forall documentPath s,
      segmentsOf documentPath = [s] ->
      (In s DOC_CONTAINER_NAMES -> computeOutputRoot documentPath = None) /\
      (~ In s DOC_CONTAINER_NAMES -> computeOutputRoot documentPath = Some s)) /\
  (forall documentPath s t rest effective,
      segmentsOf documentPath = s :: t :: rest ->
      (In s DOC_CONTAINER_NAMES /\ effective = t :: rest) \/
      (~ In s DOC_CONTAINER_NAMES /\ effective = s :: t :: rest) ->
      (forall e, effective = [e] -> computeOutputRoot documentPath = Some e) /\
      (forall front a b,
          effective = (front ++ [a; b])%list ->
          computeOutputRoot documentPath = Some (a ++ "-" ++ b))) /\
  computeOutputRoot "docs" = None /\
  computeOutputRoot "docs/code" = Some "code" /\
  computeOutputRoot "docs/code/docs" = Some "code-docs" /\
  computeOutputRoot "packages/react/docs" = Some "react-docs" /\
  computeOutputRoot "react/three/docs/v1" = Some "docs-v1" /\
  computeOutputRoot "examples/with-mdx" = Some "examples-with-mdx" /\
  computeOutputRoot "help" = Some "help".
Proof.
  split; [|split; [|repeat split; reflexivity]].
  - intros p s Hseg. unfold computeOutputRoot. rewrite Hseg.
    cbn [List.length Nat.eqb nth_error]. split; intros Hs.
    + apply has_container_iff in Hs. now rewrite Hs.
    + apply has_container_false in Hs. now rewrite Hs.
  - intros p s t rest effective Hseg Heff.
    assert (Hcode : computeOutputRoot p =
                    if Nat.eqb (List.length effective) 1
                    then nth_error effective 0
                    else Some (Js.join "-" (Js.sliceLast 2 effective))).
    { unfold computeOutputRoot. rewrite Hseg.
      cbn [List.length Nat.eqb nth_error].
      destruct Heff as [[Hs ->]|[Hs ->]].
      - apply has_container_iff in Hs. rewrite Hs. reflexivity.
      - apply has_container_false in Hs. rewrite Hs. reflexivity. }
    rewrite Hcode. split.
    + intros e ->. reflexivity.
    + intros front a b ->. rewrite sliceLast_two.
      replace (Nat.eqb (List.length (front ++ [a; b])) 1) with false.
      * reflexivity.
      * symmetry. apply Nat.eqb_neq. rewrite length_app. simpl. lia.
Qed.

Lemma computeOutputRoot_algorithm_witness :
  segmentsOf "packages/react/docs" = ["packages"; "react"; "docs"] /\
  ~ In "packages" DOC_CONTAINER_NAMES /\
  computeOutputRoot "packages/react/docs" = Some "react-docs" /\
  segmentsOf "docs" = ["docs"] /\
  In "docs" DOC_CONTAINER_NAMES /\
  computeOutputRoot "docs" = None.
Proof.
  assert (Hout : ~ In "packages" DOC_CONTAINER_NAMES).
  { simpl. intros [H|[H|[H|[]]]]; discriminate H. }
  assert (Hin : In "docs" DOC_CONTAINER_NAMES) by (simpl; auto).
  destruct computeOutputRoot_algorithm as [Hone [Hmany _]].
  split; [reflexivity|]. split; [exact Hout|]. split.
  - exact (proj2 (Hmany "packages/react/docs" "packages" "react" ["docs"]
                        ["packages"; "react"; "docs"] eq_refl
                        (or_intror (conj Hout eq_refl)))
                 ["packages"] "react" "docs" eq_refl).
  - split; [reflexivity|]. split; [exact Hin|].
    exact (proj1 (Hone "docs" "docs" eq_refl) Hin).
Defined.

(** C6, as the code has it.  [computeOutputRoot] segments on the slash only;
    a backslash is an ordinary unit of a segment.  A non-empty path without a
    slash is therefore one segment, so the backslash-delimited path docs\code
    comes back whole while docs/code gives code. *)
Theorem computeOutputRoot_splits_on_slash_only :
  (forall documentPath,
      documentPath <> "" ->
      hasUnit "/" documentPath = false ->
      computeOutputRoot documentPath =
      if has_DOC_CONTAINER_NAMES (Some documentPath) then None
      else Some documentPath) /\
  computeOutputRoot "docs\code" = Some "docs\code" /\
  computeOutputRoot "docs/code" = Some "code".
Proof.
  split; [|split; reflexivity].
  intros p Hne Hno. unfold computeOutputRoot.
  rewrite (segmentsOf_no_slash p Hne Hno). reflexivity.
Qed.

Lemma computeOutputRoot_splits_on_slash_only_witness :
  "packages\react\docs" <> "" /\
  hasUnit "/" "packages\react\docs" = false /\
  computeOutputRoot "packages\react\docs" = Some "packages\react\docs".
Proof.
  assert (Hne : "packages\react\docs" <> "") by discriminate.
  split; [exact Hne|]. split; [reflexivity|].
  exact (proj1 computeOutputRoot_splits_on_slash_only
               "packages\react\docs" Hne eq_refl).
Defined.

(** C6, as stated, fails: the backslash-delimited path is not segmented like
    the slash-delimited one. *)
Lemma computeOutputRoot_backslash_counterexample :
  computeOutputRoot "docs\code" <> computeOutputRoot "docs/code".
Proof. discriminate. Qed.

(** C7. [computeOutputRoot] does not see leading, trailing or repeated
    slashes: prepending any number of slashes, appending any number of
    slashes, or repeating an interior slash any number of times leaves the
    result unchanged. *)
Theorem computeOutputRoot_slash_insensitive :
  (forall n p, computeOutputRoot (slashes n ++ p) = computeOutputRoot p) /\
  (forall n p, computeOutputRoot (p ++ slashes n) = computeOutputRoot p) /\
  (forall n p q,
      computeOutputRoot (p ++ "/" ++ slashes n ++ q) =
      computeOutputRoot (p ++ "/" ++ q)) /\
  computeOutputRoot "docs/code" = computeOutputRoot "//docs/code//" /\
  computeOutputRoot "//docs/code//" = computeOutputRoot "docs//code".
Proof.
  repeat split.
  - intros n p. apply computeOutputRoot_by_segments, segmentsOf_slashes_left.
  - intros n p. apply computeOutputRoot_by_segments, segmentsOf_slashes_right.
  - intros n p q. apply computeOutputRoot_by_segments.
    change ("/" ++ slashes n ++ q) with (String "/" (slashes n ++ q)).
    change ("/" ++ q) with (String "/" q).
    now rewrite !segmentsOf_glue, segmentsOf_slashes_left.
Qed.

(** C9, as the code has it.  For a path that is empty or made of slashes
    only, [computeOutputRoot] returns the empty string (a falsy value, which
    [buildOutputLocation] treats like [undefined]), not [undefined]. *)
Theorem computeOutputRoot_no_segments :
  forall documentPath,
    onlyUnit "/" documentPath = true ->
    segmentsOf documentPath = [] /\ computeOutputRoot documentPath = Some "".
Proof.
  intros p Hp. pose proof (segmentsOf_only_slashes p Hp) as Hseg.
  split; [assumption|]. unfold computeOutputRoot. now rewrite Hseg.
Qed.

Lemma computeOutputRoot_no_segments_witness :
  onlyUnit "/" "///" = true /\
  segmentsOf "///" = [] /\ computeOutputRoot "///" = Some "".
Proof.
  split; [reflexivity|]. exact (computeOutputRoot_no_segments "///" eq_refl).
Defined.

(** C9, as stated, fails: on the empty path the result is not [undefined]. *)
Lemma computeOutputRoot_empty_counterexample :
  onlyUnit "/" "" = true /\ computeOutputRoot "" <> None.
Proof. split; [reflexivity|discriminate]. Qed.

(** ** Facts used for [buildOutputLocation] *)

Lemma startsWith_append (p s : string) : Js.startsWith (p ++ s) p = true.
Proof.
  unfold Js.startsWith. induction p as [|c p IH]; simpl.
  - now destruct s.
  - destruct (ascii_dec c c) as [_|Hc]; [exact IH|now elim Hc].
Qed.

Lemma finalFilenameOf_startsWith (folderPrefix name : string) :
  Js.startsWith (finalFilenameOf folderPrefix name) folderPrefix = true.
Proof.
  unfold finalFilenameOf.
  destruct (Js.startsWith name folderPrefix) eqn:H;
    [exact H|apply startsWith_append].
Qed.

Lemma finalFilenameOf_idempotent (folderPrefix name : string) :
  finalFilenameOf folderPrefix (finalFilenameOf folderPrefix name) =
  finalFilenameOf folderPrefix name.
Proof.
  unfold finalFilenameOf at 1. now rewrite finalFilenameOf_startsWith.
Qed.

(** The location is a function of the pieces of the relative path. *)
Lemma buildOutputLocation_pieces
    (filePath documentPath : string) (outputRoot : option string)
    (outputDirectory : string) (folders : list string) (base : string) :
  Js.split "/" (relativePathOf filePath documentPath) = (folders ++ [base])%list ->
  buildOutputLocation filePath documentPath outputRoot outputDirectory =
  {| directory := directoryOf outputRoot outputDirectory;
     filename :=
       finalFilenameOf (folderPrefixOf (prefixPartsOf outputRoot folders)) base |}.
Proof.
  intros H. unfold buildOutputLocation. now rewrite H, last_last, removelast_last.
Qed.

(** [split] always ends with a base filename, possibly after folder parts. *)
Lemma split_folders_base (s : string) :
  Js.split "/" s = (removelast (Js.split "/" s) ++ [last (Js.split "/" s) ""])%list.
Proof. apply app_removelast_last, split_not_nil. Qed.

Section UnitFree.

Variable d : ascii.

Lemma hasUnit_append (a b : string) :
  hasUnit d (a ++ b) = hasUnit d a || hasUnit d b.
Proof.
  induction a as [|c a IH]; simpl; [reflexivity|].
  now rewrite IH, orb_assoc.
Qed.

Lemma hasUnit_slice (n : nat) (s : string) :
  hasUnit d s = false -> hasUnit d (Js.slice n s) = false.
Proof.
  revert s. induction n as [|n IH]; intros s H; [exact H|].
  destruct s as [|c s]; [reflexivity|]. simpl in *.
  apply orb_false_iff in H as [_ H]. now apply IH.
Qed.

Lemma hasUnit_join (sep : string) (l : list string) :
  hasUnit d sep = false ->
  (forall x, In x l -> hasUnit d x = false) ->
  hasUnit d (Js.join sep l) = false.
Proof.
  intros Hsep. unfold Js.join. induction l as [|x l IH]; intros Hl.
  - reflexivity.
  - destruct l as [|y l].
    + apply Hl. now left.
    + change (String.concat sep (x :: y :: l))
        with (x ++ sep ++ String.concat sep (y :: l)).
      rewrite !hasUnit_append, Hsep, (Hl x (or_introl eq_refl)). simpl.
      apply IH. intros z Hz. apply Hl. now right.
Qed.

Lemma hasUnit_folderPrefixOf (l : list string) :
  hasUnit d "-" = false ->
  (forall x, In x l -> hasUnit d x = false) ->
  hasUnit d (folderPrefixOf l) = false.
Proof.
  intros Hdash Hl. unfold folderPrefixOf.
  destruct (Nat.ltb 0 (List.length l)); [|reflexivity].
  now rewrite hasUnit_append, Hdash, hasUnit_join.
Qed.

Lemma hasUnit_finalFilenameOf (folderPrefix name : string) :
  hasUnit d folderPrefix = false -> hasUnit d name = false ->
  hasUnit d (finalFilenameOf folderPrefix name) = false.
Proof.
  intros Hp Hn. unfold finalFilenameOf.
  destruct (Js.startsWith name folderPrefix); [exact Hn|].
  now rewrite hasUnit_append, Hp, Hn.
Qed.

Lemma In_prefixPartsOf (outputRoot : option string) (parts : list string)
    (x : string) :
  In x (prefixPartsOf outputRoot parts) -> outputRoot = Some x \/ In x parts.
Proof.
  unfold prefixPartsOf. intros H.
  assert (Hroot : forall y,
             In y match outputRoot with
                  | Some r => if Js.truthyString r then ([] ++ [r])%list else []
                  | None => []
                  end -> outputRoot = Some y).
  { intros y Hy. destruct outputRoot as [r|]; [|destruct Hy].
    destruct (Js.truthyString r); [|destruct Hy].
    destruct Hy as [<-|[]]. reflexivity. }
  destruct (_ && _) in H.
  - apply in_app_or in H as [H|H]; [left; now apply Hroot|now right].
  - left. now apply Hroot.
Qed.

(** If [d] is not the hyphen and occurs neither in the pieces of the
    relative path nor in the output root, it does not occur in the
    filename. *)
Lemma hasUnit_filename
    (filePath documentPath : string) (outputRoot : option string)
    (outputDirectory : string) :
  hasUnit d "-" = false ->
  (forall piece,
      In piece (Js.split "/" (relativePathOf filePath documentPath)) ->
      hasUnit d piece = false) ->
  (forall r, outputRoot = Some r -> hasUnit d r = false) ->
  hasUnit d (filename (buildOutputLocation filePath documentPath
                                           outputRoot outputDirectory)) = false.
Proof.
  intros Hdash Hpieces Hroot.
  pose proof (split_folders_base (relativePathOf filePath documentPath)) as Hsplit.
  rewrite (buildOutputLocation_pieces _ _ _ _ _ _ Hsplit). simpl filename.
  rewrite Hsplit in Hpieces.
  apply hasUnit_finalFilenameOf.
  - apply hasUnit_folderPrefixOf; [exact Hdash|].
    intros x Hx. apply In_prefixPartsOf in Hx as [Hx|Hx].
    + now apply Hroot.
    + apply Hpieces, in_or_app. now left.
  - apply Hpieces, in_or_app. right. now left.
Qed.

End UnitFree.

Lemma replaceAll_removes (pat rep : ascii) (s : string) :
  Ascii.eqb rep pat = false -> hasUnit pat (Js.replaceAll pat rep s) = false.
Proof.
  intros Hrep. induction s as [|c s IH]; simpl; [reflexivity|].
  rewrite IH, orb_false_r. destruct (Ascii.eqb c pat) eqn:Hc; assumption.
Qed.

Lemma relativePathOf_no_backslash (filePath documentPath : string) :
  hasUnit "\" (relativePathOf filePath documentPath) = false.
Proof.
  unfold relativePathOf.
  pose proof (replaceAll_removes "\" "/" filePath eq_refl) as H.
  destruct (Js.startsWith _ _); [now apply hasUnit_slice|exact H].
Qed.

(** ** Claims about [buildOutputLocation] *)

(** C2, as the code has it.  The filenames of the documented scenarios are the
    literal ones.  The directory is the base output directory itself when the
    output root is [undefined], and [path.join] of the base directory and the
    root when the root is a non-empty string; [path.join] normalizes its
    result, so joining ./output and code gives output/code. *)
Theorem buildOutputLocation_scenarios :
  (forall filePath documentPath outputDirectory,
      directory (buildOutputLocation filePath documentPath None outputDirectory)
      = outputDirectory) /\
  (forall filePath documentPath r outputDirectory,
      r <> "" ->
      directory (buildOutputLocation filePath documentPath (Some r) outputDirectory)
      = Path.join outputDirectory r) /\
  buildOutputLocation "docs/guide.md" "docs" None "./output"
  = {| directory := "./output"; filename := "guide.md" |} /\
  buildOutputLocation "docs/api/getting-started.mdx" "docs" None "./output"
  = {| directory := "./output"; filename := "api-getting-started.mdx" |} /\
  buildOutputLocation "docs/code/api.md" "docs/code" (Some "code") "./output"
  = {| directory := "output/code"; filename := "code-api.md" |} /\
  buildOutputLocation "docs/code/api/api.md" "docs/code" (Some "code") "./output"
  = {| directory := "output/code"; filename := "code-api-api.md" |} /\
  buildOutputLocation "docs\code\api\hooks.md" "docs/code" (Some "code") "./output"
  = {| directory := "output/code"; filename := "code-api-hooks.md" |} /\
  buildOutputLocation "docs/code/code-api.md" "docs/code" (Some "code") "./output"
  = {| directory := "output/code"; filename := "code-api.md" |}.
Proof.
  split; [reflexivity|]. split; [|repeat split; reflexivity].
  intros filePath documentPath r outputDirectory Hr.
  unfold buildOutputLocation, directoryOf. simpl directory.
  apply truthyString_true in Hr. now rewrite Hr.
Qed.

Lemma buildOutputLocation_scenarios_witness :
  "code" <> "" /\
  directory (buildOutputLocation "docs/code/api.md" "docs/code"
                                 (Some "code") "/srv/out")
  = Path.join "/srv/out" "code".
Proof.
  assert (Hne : "code" <> "") by discriminate.
  split; [exact Hne|].
  exact (proj1 (proj2 buildOutputLocation_scenarios)
               "docs/code/api.md" "docs/code" "code" "/srv/out" Hne).
Defined.

(** C2, as stated, fails on the directory: it is output/code, without the
    leading dot segment. *)
Lemma buildOutputLocation_directory_counterexample :
  directory (buildOutputLocation "docs/code/api.md" "docs/code"
                                 (Some "code") "./output")
  <> "./output/code".
Proof. discriminate. Qed.

(** C3, as the code has it.  When the output root is [undefined] or contains
    neither a slash nor a backslash, the filename contains neither. *)
Theorem buildOutputLocation_filename_no_separator :
  forall filePath documentPath outputRoot outputDirectory,
    (forall r, outputRoot = Some r ->
               hasUnit "/" r = false /\ hasUnit "\" r = false) ->
    let name := filename (buildOutputLocation filePath documentPath
                                              outputRoot outputDirectory) in
    hasUnit "/" name = false /\ hasUnit "\" name = false.
Proof.
  intros filePath documentPath outputRoot outputDirectory Hroot name.
  subst name. split; apply hasUnit_filename; try reflexivity.
  - intros piece. apply split_pieces_no_sep.
  - intros r Hr. now apply Hroot.
  - intros piece. apply split_pieces_no_unit, relativePathOf_no_backslash.
  - intros r Hr. now apply Hroot.
Qed.

Lemma buildOutputLocation_filename_no_separator_witness :
  hasUnit "/" (filename (buildOutputLocation "docs\code/api\hooks.md" "docs/code"
                                             (Some "code") "./output")) = false /\
  hasUnit "\" (filename (buildOutputLocation "docs\code/api\hooks.md" "docs/code"
                                             (Some "code") "./output")) = false.
Proof.
  apply (buildOutputLocation_filename_no_separator
           "docs\code/api\hooks.md" "docs/code" (Some "code") "./output").
  intros r Hr. injection Hr as <-. split; reflexivity.
Defined.

(** C3, as stated, fails: a separator in the output root reaches the filename.
    The second input is what the program itself computes for the path
    guides\v1, whose root keeps the backslash. *)
Lemma buildOutputLocation_filename_separator_counterexample :
  hasUnit "/" (filename (buildOutputLocation "docs/x.md" "docs"
                                             (Some "a/b") "./output")) = true /\
  hasUnit "\" (filename (buildOutputLocation "guides\v1/intro.md" "guides\v1"
                                             (computeOutputRoot "guides\v1")
                                             "./output")) = true.
Proof. split; reflexivity. Qed.

(** C4. The filename is stable under rebuilding: a file whose relative path
    has the same folder parts and whose base filename is the filename already
    produced gets the same location, the prefix is not added again. *)
Theorem buildOutputLocation_idempotent :
  forall filePath documentPath outputRoot outputDirectory filePath',
    let parts := Js.split "/" (relativePathOf filePath documentPath) in
    let produced := buildOutputLocation filePath documentPath
                                        outputRoot outputDirectory in
    Js.split "/" (relativePathOf filePath' documentPath)
    = (removelast parts ++ [filename produced])%list ->
    buildOutputLocation filePath' documentPath outputRoot outputDirectory
    = produced.
Proof.
  intros filePath documentPath outputRoot outputDirectory filePath'
         parts produced Hagain.
  rewrite (buildOutputLocation_pieces _ _ _ _ _ _ Hagain).
  subst produced parts.
  rewrite (buildOutputLocation_pieces
             filePath documentPath outputRoot outputDirectory _ _
             (split_folders_base _)).
  simpl filename. now rewrite finalFilenameOf_idempotent.
Qed.

Lemma buildOutputLocation_idempotent_witness :
  buildOutputLocation "docs/code/api/code-api-hooks.md" "docs/code"
                      (Some "code") "./output"
  = buildOutputLocation "docs/code/api/hooks.md" "docs/code"
                        (Some "code") "./output".
Proof.
  exact (buildOutputLocation_idempotent
           "docs/code/api/hooks.md" "docs/code" (Some "code") "./output"
           "docs/code/api/code-api-hooks.md" eq_refl).
Defined.

(** C5, as the code has it.  When the output root is a non-empty string and
    the first folder part equals it, the folder parts are not appended: the
    prefix segments are the root alone.  Only the first folder part is
    compared: when it differs from the root, all folder parts are appended
    after the root, later occurrences of the root included. *)
Theorem buildOutputLocation_root_dedup :
  (forall filePath documentPath r outputDirectory rest base,
      r <> "" ->
      Js.split "/" (relativePathOf filePath documentPath)
      = ((r :: rest) ++ [base])%list ->
      prefixPartsOf (Some r) (r :: rest) = [r] /\
      filename (buildOutputLocation filePath documentPath (Some r) outputDirectory)
      = finalFilenameOf (r ++ "-") base) /\
  (forall filePath documentPath r outputDirectory first rest base,
      r <> "" -> first <> r ->
      Js.split "/" (relativePathOf filePath documentPath)
      = ((first :: rest) ++ [base])%list ->
      prefixPartsOf (Some r) (first :: rest) = r :: first :: rest /\
      filename (buildOutputLocation filePath documentPath (Some r) outputDirectory)
      = finalFilenameOf (Js.join "-" (r :: first :: rest) ++ "-") base) /\
  filename (buildOutputLocation "docs/code/code/x.md" "docs/code"
                                (Some "code") "./output") = "code-x.md" /\
  filename (buildOutputLocation "docs/code/api/code/x.md" "docs/code"
                                (Some "code") "./output") = "code-api-code-x.md".
Proof.
  split; [|split; [|split; reflexivity]].
  - intros filePath documentPath r outputDirectory rest base Hr Hsplit.
    assert (Hparts : prefixPartsOf (Some r) (r :: rest) = [r]).
    { unfold prefixPartsOf. cbn [Js.truthy Js.strictEq nth_error List.length].
      apply truthyString_true in Hr. rewrite Hr, String.eqb_refl. reflexivity. }
    split; [exact Hparts|].
    rewrite (buildOutputLocation_pieces _ _ _ _ _ _ Hsplit).
    simpl filename. rewrite Hparts. reflexivity.
  - intros filePath documentPath r outputDirectory first rest base Hr Hfirst Hsplit.
    assert (Hparts : prefixPartsOf (Some r) (first :: rest) = r :: first :: rest).
    { unfold prefixPartsOf. cbn [Js.truthy Js.strictEq nth_error List.length].
      apply truthyString_true in Hr. apply String.eqb_neq in Hfirst.
      rewrite Hr, Hfirst. reflexivity. }
    split; [exact Hparts|].
    rewrite (buildOutputLocation_pieces _ _ _ _ _ _ Hsplit).
    simpl filename. rewrite Hparts. reflexivity.
Qed.

Lemma buildOutputLocation_root_dedup_witness :
  filename (buildOutputLocation "docs/code/code/api/x.md" "docs/code"
                                (Some "code") "./output")
  = finalFilenameOf "code-" "x.md" /\
  filename (buildOutputLocation "docs/code/api/code/x.md" "docs/code"
                                (Some "code") "./output")
  = finalFilenameOf "code-api-code-" "x.md".
Proof.
  assert (Hr : "code" <> "") by discriminate.
  assert (Hfirst : "api" <> "code") by discriminate.
  destruct buildOutputLocation_root_dedup as [Hsame [Hother _]].
  split.
  - exact (proj2 (Hsame "docs/code/code/api/x.md" "docs/code" "code" "./output"
                        ["api"] "x.md" Hr eq_refl)).
  - exact (proj2 (Hother "docs/code/api/code/x.md" "docs/code" "code" "./output"
                         "api" ["code"] "x.md" Hr Hfirst eq_refl)).
Defined.

(** C5, as stated, fails for an output root that is the empty string: the
    first folder part equals the root, and the folder parts are appended. *)
Lemma buildOutputLocation_root_dedup_counterexample :
  Js.split "/" (relativePathOf "docs//a/x.md" "docs") = [""; "a"; "x.md"] /\
  nth_error [""; "a"] 0 = Some "" /\
  In "a" (prefixPartsOf (Some "") [""; "a"]) /\
  filename (buildOutputLocation "docs//a/x.md" "docs" (Some "") "./output")
  = "-a-x.md" /\
  filename (buildOutputLocation "docs//a/x.md" "docs" (Some "") "./output")
  <> finalFilenameOf "-" "x.md".
Proof.
  split; [reflexivity|]. split; [reflexivity|]. split; [simpl; auto|].
  split; [reflexivity|discriminate].
Qed.

(** C8. When the normalized file path does not start with the documentation
    path followed by a slash, the whole normalized path is the relative path,
    and the location is the flattening of that whole path. *)
Theorem buildOutputLocation_fallback :
  forall filePath documentPath outputRoot outputDirectory,
    let normalized := Js.replaceAll "\" "/" filePath in
    Js.startsWith normalized (documentPath ++ "/") = false ->
    relativePathOf filePath documentPath = normalized /\
    buildOutputLocation filePath documentPath outputRoot outputDirectory
    = {| directory := directoryOf outputRoot outputDirectory;
         filename :=
           finalFilenameOf
             (folderPrefixOf
                (prefixPartsOf outputRoot
                               (removelast (Js.split "/" normalized))))
             (last (Js.split "/" normalized) "") |}.
Proof.
  intros filePath documentPath outputRoot outputDirectory normalized Hout.
  assert (Hrel : relativePathOf filePath documentPath = normalized).
  { unfold relativePathOf. fold normalized. now rewrite Hout. }
  split; [exact Hrel|].
  rewrite (buildOutputLocation_pieces
             filePath documentPath outputRoot outputDirectory _ _
             (split_folders_base _)).
  now rewrite Hrel.
Qed.

Lemma buildOutputLocation_fallback_witness :
  relativePathOf "guides\setup/intro.md" "docs" = "guides/setup/intro.md" /\
  buildOutputLocation "guides\setup/intro.md" "docs" None "./output"
  = {| directory := "./output"; filename := "guides-setup-intro.md" |}.
Proof.
  exact (buildOutputLocation_fallback
           "guides\setup/intro.md" "docs" None "./output" eq_refl).
Defined.

(** C10. The empty string as output root gives the same location as an
    [undefined] output root. *)
Theorem buildOutputLocation_empty_root :
  forall filePath documentPath outputDirectory,
    buildOutputLocation filePath documentPath (Some "") outputDirectory
    = buildOutputLocation filePath documentPath None outputDirectory.
Proof.
  intros filePath documentPath outputDirectory.
  unfold buildOutputLocation, prefixPartsOf, directoryOf.
  cbn [Js.truthy Js.truthyString String.eqb negb andb]. reflexivity.
Qed.

(** ** Further facts about the primitives *)

Lemma startsWith_iff (s p : string) :
  Js.startsWith s p = true <-> exists t, s = p ++ t.
Proof.
  unfold Js.startsWith. revert s. induction p as [|c p IH]; intros s.
  - split; [intros _; now exists s|intros _; now destruct s].
  - destruct s as [|d s]; simpl.
    + split; [discriminate|intros [t Ht]; discriminate Ht].
    + destruct (ascii_dec c d) as [->|Hcd].
      * rewrite IH. split; intros [t Ht]; exists t.
        -- now rewrite Ht.
        -- now injection Ht.
      * split; [discriminate|].
        intros [t Ht]. injection Ht as Hd _. now elim Hcd.
Qed.

Lemma endsWith_iff (s suf : string) :
  Js.endsWith s suf = true <-> exists front, s = front ++ suf.
Proof.
  induction s as [|c s IH].
  - change (Js.endsWith "" suf) with (("" =? suf) || false).
    rewrite orb_false_r, String.eqb_eq. split.
    + intros <-. now exists "".
    + intros [front H]. destruct front; [exact H|discriminate H].
  - change (Js.endsWith (String c s) suf)
      with ((String c s =? suf) || Js.endsWith s suf).
    rewrite orb_true_iff, String.eqb_eq, IH. split.
    + intros [<-|[front ->]]; [now exists ""|now exists (String c front)].
    + intros [front H]. destruct front as [|d front]; [now left|].
      right. exists front. simpl in H. now injection H.
Qed.

Lemma append_assoc (a b c : string) : (a ++ b) ++ c = a ++ b ++ c.
Proof. induction a as [|x a IH]; simpl; [reflexivity|now rewrite IH]. Qed.

Lemma length_append (a b : string) :
  String.length (a ++ b) = String.length a + String.length b.
Proof. induction a as [|x a IH]; simpl; [reflexivity|now rewrite IH]. Qed.

Lemma In_sliceLast {A : Type} (n : nat) (l : list A) (x : A) :
  In x (Js.sliceLast n l) -> In x l.
Proof.
  unfold Js.sliceLast. intros H.
  rewrite <- (firstn_skipn (List.length l - n) l). apply in_or_app. now right.
Qed.

Lemma In_segmentsOf (p x : string) :
  In x (segmentsOf p) -> x <> "" /\ hasUnit "/" x = false.
Proof.
  unfold segmentsOf. rewrite filter_In. intros [Hin Hx]. split.
  - now apply truthyString_true.
  - now apply (split_pieces_no_sep "/" p).
Qed.

(** What [computeOutputRoot] returns, by the number of segments. *)
Lemma computeOutputRoot_cases (p : string) :
  (segmentsOf p = [] /\ computeOutputRoot p = Some "") \/
  (exists s, segmentsOf p = [s] /\
             computeOutputRoot p =
             if has_DOC_CONTAINER_NAMES (Some s) then None else Some s) \/
  (exists s t, segmentsOf p = [s; t] /\
               computeOutputRoot p =
               Some (if has_DOC_CONTAINER_NAMES (Some s) then t
                     else s ++ "-" ++ t)) \/
  (exists s front a b, segmentsOf p = (s :: front ++ [a; b])%list /\
                       computeOutputRoot p = Some (a ++ "-" ++ b)).
Proof.
  unfold computeOutputRoot.
  destruct (segmentsOf p) as [|s [|t rest]] eqn:Hseg.
  - left. now split.
  - right; left. exists s. now split.
  - right; right.
    destruct (exists_last (l := t :: rest)) as [body [b Hbody]]; [discriminate|].
    destruct body as [|t' front].
    + left. exists s, t. injection Hbody as -> ->. split; [reflexivity|].
      cbn [List.length Nat.eqb nth_error skipn].
      now destruct (has_DOC_CONTAINER_NAMES (Some s)).
    + right. simpl in Hbody. injection Hbody as <- ->.
      destruct (exists_last (l := t :: front)) as [front' [a Hfront]];
        [discriminate|].
      exists s, front', a, b.
      assert (Hshape : (t :: front ++ [b] = front' ++ [a; b])%list).
      { change (t :: front ++ [b])%list with ((t :: front) ++ [b])%list.
        rewrite Hfront, <- app_assoc. reflexivity. }
      split; [now rewrite Hshape|].
      cbn [nth_error].
      assert (Hlen : forall l : list string,
                 Nat.eqb (List.length (l ++ [a; b])) 1 = false).
      { intros l. apply Nat.eqb_neq. rewrite length_app. simpl. lia. }
      replace (Nat.eqb (List.length (s :: t :: front ++ [b])) 1) with false
        by (symmetry; apply Nat.eqb_neq; simpl; lia).
      destruct (has_DOC_CONTAINER_NAMES (Some s)).
      * cbn [skipn]. rewrite Hshape, Hlen, sliceLast_two. reflexivity.
      * change (s :: t :: front ++ [b])%list
          with (s :: (t :: front ++ [b]))%list.
        rewrite Hshape.
        change (s :: front' ++ [a; b])%list with ((s :: front') ++ [a; b])%list.
        rewrite Hlen, sliceLast_two. reflexivity.
Qed.

Lemma computeOutputRoot_long (p s : string) (front : list string) (a b : string) :
  segmentsOf p = (s :: front ++ [a; b])%list ->
  computeOutputRoot p = Some (a ++ "-" ++ b).
Proof.
  intros Hseg. unfold computeOutputRoot. rewrite Hseg.
  assert (Hlen : forall l : list string,
             Nat.eqb (List.length (l ++ [a; b])) 1 = false).
  { intros l. apply Nat.eqb_neq. rewrite length_app. simpl. lia. }
  change (s :: front ++ [a; b])%list with ((s :: front) ++ [a; b])%list.
  rewrite Hlen. cbn [app nth_error skipn].
  destruct (has_DOC_CONTAINER_NAMES (Some s)).
  - now rewrite Hlen, sliceLast_two.
  - change (s :: front ++ [a; b])%list with ((s :: front) ++ [a; b])%list.
    now rewrite Hlen, sliceLast_two.
Qed.

Lemma hyphenated_not_empty (a b : string) : a ++ "-" ++ b <> "".
Proof. destruct a; discriminate. Qed.

Lemma computeOutputRoot_no_slash (p r : string) :
  computeOutputRoot p = Some r -> hasUnit "/" r = false.
Proof.
  intros Hr.
  assert (Hseg : forall x, In x (segmentsOf p) -> hasUnit "/" x = false)
    by (intros x Hx; now apply (In_segmentsOf p)).
  assert (Hpair : forall a b, In a (segmentsOf p) -> In b (segmentsOf p) ->
                              hasUnit "/" (a ++ "-" ++ b) = false).
  { intros a b Ha Hb. now rewrite !hasUnit_append, (Hseg a Ha), (Hseg b Hb). }
  destruct (computeOutputRoot_cases p)
    as [[_ H]|[[s [Hs H]]|[[s [t [Hs H]]]|[s [front [a [b [Hs H]]]]]]]];
    rewrite H in Hr.
  - now injection Hr as <-.
  - destruct (has_DOC_CONTAINER_NAMES (Some s)); [discriminate|].
    injection Hr as <-. apply Hseg. rewrite Hs. now left.
  - rewrite Hs in Hseg, Hpair.
    destruct (has_DOC_CONTAINER_NAMES (Some s)); injection Hr as <-.
    + apply Hseg. right. now left.
    + apply Hpair; [now left|right; now left].
  - injection Hr as <-. rewrite Hs in Hpair.
    apply Hpair; right; apply in_or_app; right; simpl; auto.
Qed.

(** ** Further properties of [computeOutputRoot] *)

(** X1. The output root never contains a slash: it names one directory
    level. *)
Theorem computeOutputRoot_single_level :
  forall documentPath r,
    computeOutputRoot documentPath = Some r -> hasUnit "/" r = false.
Proof. exact computeOutputRoot_no_slash. Qed.

Lemma computeOutputRoot_single_level_witness :
  hasUnit "/" "react-docs" = false.
Proof.
  exact (computeOutputRoot_single_level "//packages/react/docs//" "react-docs"
                                        eq_refl).
Defined.

(** X2. [computeOutputRoot] returns [undefined] exactly when the path has a
    single segment and that segment is a documentation-container name. *)
Theorem computeOutputRoot_undefined_iff :
  forall documentPath,
    computeOutputRoot documentPath = None <->
    exists s, segmentsOf documentPath = [s] /\ In s DOC_CONTAINER_NAMES.
Proof.
  intros p. split.
  - intros Hnone.
    destruct (computeOutputRoot_cases p)
      as [[_ H]|[[s [Hs H]]|[[s [t [_ H]]]|[s [front [a [b [_ H]]]]]]]];
      rewrite H in Hnone; try discriminate.
    exists s. split; [exact Hs|]. apply has_container_iff.
    now destruct (has_DOC_CONTAINER_NAMES (Some s)).
  - intros [s [Hs Hin]]. unfold computeOutputRoot. rewrite Hs.
    cbn [List.length Nat.eqb nth_error].
    apply has_container_iff in Hin. now rewrite Hin.
Qed.

Lemma computeOutputRoot_undefined_iff_witness :
  computeOutputRoot "/documentation/" = None /\
  exists s, segmentsOf "help" = [s] /\ ~ In s DOC_CONTAINER_NAMES.
Proof.
  split.
  - apply (proj2 (computeOutputRoot_undefined_iff "/documentation/")).
    exists "documentation". split; [reflexivity|simpl; auto].
  - exists "help". split; [reflexivity|].
    intros Hin.
    assert (Hnone : computeOutputRoot "help" = None).
    { apply (proj2 (computeOutputRoot_undefined_iff "help")).
      exists "help". now split. }
    discriminate Hnone.
Defined.

(** X3. [computeOutputRoot] returns the empty string exactly when the path
    has no segment at all; every other result is [undefined] or a non-empty
    directory name. *)
Theorem computeOutputRoot_empty_iff :
  forall documentPath,
    computeOutputRoot documentPath = Some "" <-> segmentsOf documentPath = [].
Proof.
  intros p. split.
  - intros Hempty.
    destruct (computeOutputRoot_cases p)
      as [[Hs _]|[[s [Hs H]]|[[s [t [Hs H]]]|[s [front [a [b [_ H]]]]]]]];
      [exact Hs| | |]; rewrite H in Hempty; exfalso.
    + destruct (has_DOC_CONTAINER_NAMES (Some s)); [discriminate|].
      injection Hempty as ->.
      apply (proj1 (In_segmentsOf p "" ltac:(rewrite Hs; now left))).
      reflexivity.
    + destruct (has_DOC_CONTAINER_NAMES (Some s)); injection Hempty as Hempty.
      * subst t.
        apply (proj1 (In_segmentsOf p "" ltac:(rewrite Hs; simpl; auto))).
        reflexivity.
      * now apply hyphenated_not_empty in Hempty.
    + injection Hempty as Hempty. now apply hyphenated_not_empty in Hempty.
  - intros Hs. unfold computeOutputRoot. now rewrite Hs.
Qed.

Lemma computeOutputRoot_empty_iff_witness :
  segmentsOf "//" = [] /\ computeOutputRoot "//" = Some "".
Proof.
  split; [reflexivity|].
  exact (proj2 (computeOutputRoot_empty_iff "//") eq_refl).
Defined.

(** X4. With three or more segments only the last two count: two
    documentation paths that end with the same two segments get the same
    output root, whatever precedes them. *)
Theorem computeOutputRoot_last_two_only :
  forall p q s s' front front' a b,
    segmentsOf p = (s :: front ++ [a; b])%list ->
    segmentsOf q = (s' :: front' ++ [a; b])%list ->
    computeOutputRoot p = Some (a ++ "-" ++ b) /\
    computeOutputRoot q = computeOutputRoot p.
Proof.
  intros p q s s' front front' a b Hp Hq.
  rewrite (computeOutputRoot_long p s front a b Hp),
          (computeOutputRoot_long q s' front' a b Hq).
  now split.
Qed.

Lemma computeOutputRoot_last_two_only_witness :
  computeOutputRoot "packages/react/docs/api" = Some "docs-api" /\
  computeOutputRoot "docs/vue/extra/docs/api"
  = computeOutputRoot "packages/react/docs/api".
Proof.
  exact (computeOutputRoot_last_two_only
           "packages/react/docs/api" "docs/vue/extra/docs/api"
           "packages" "docs" ["react"] ["vue"; "extra"] "docs" "api"
           eq_refl eq_refl).
Defined.

(** ** Further facts used for [buildOutputLocation] *)

Lemma replaceAll_append (pat rep : ascii) (a b : string) :
  Js.replaceAll pat rep (a ++ b)
  = Js.replaceAll pat rep a ++ Js.replaceAll pat rep b.
Proof. induction a as [|c a IH]; simpl; [reflexivity|now rewrite IH]. Qed.

Lemma replaceAll_absent (pat rep : ascii) (s : string) :
  hasUnit pat s = false -> Js.replaceAll pat rep s = s.
Proof.
  induction s as [|c s IH]; simpl; [reflexivity|].
  intros H. apply orb_false_iff in H as [Hc Hs]. now rewrite Hc, IH.
Qed.

Lemma replaceAll_again (s : string) :
  Js.replaceAll "\" "/" (Js.replaceAll "\" "/" s) = Js.replaceAll "\" "/" s.
Proof. apply replaceAll_absent, replaceAll_removes. reflexivity. Qed.

Lemma slice_append (u t : string) : Js.slice (String.length u) (u ++ t) = t.
Proof. induction u as [|c u IH]; simpl; [now destruct t|exact IH]. Qed.

(** A file below the documentation path: the relative path is what follows
    the path and its slash. *)
Lemma relativePathOf_below (documentPath rel : string) :
  hasUnit "\" documentPath = false ->
  relativePathOf (documentPath ++ "/" ++ rel) documentPath
  = Js.replaceAll "\" "/" rel.
Proof.
  intros Hdp. unfold relativePathOf.
  rewrite replaceAll_append, (replaceAll_absent _ _ _ Hdp).
  change (Js.replaceAll "\" "/" ("/" ++ rel))
    with ("/" ++ Js.replaceAll "\" "/" rel).
  rewrite <- append_assoc, startsWith_append.
  replace (String.length documentPath + 1)
    with (String.length (documentPath ++ "/"))
    by (rewrite length_append; reflexivity).
  apply slice_append.
Qed.

(** The base filename is the last piece of the normalized path, whether or
    not the documentation path was stripped. *)
Lemma base_of_relativePathOf (filePath documentPath : string) :
  last (Js.split "/" (relativePathOf filePath documentPath)) ""
  = last (Js.split "/" (Js.replaceAll "\" "/" filePath)) "".
Proof.
  unfold relativePathOf.
  destruct (Js.startsWith _ _) eqn:Hstart; [|reflexivity].
  apply startsWith_iff in Hstart as [t Ht]. rewrite Ht.
  replace (String.length documentPath + 1)
    with (String.length (documentPath ++ "/"))
    by (rewrite length_append; reflexivity).
  rewrite slice_append, append_assoc.
  change ("/" ++ t) with (String "/" t). rewrite split_glue.
  pose proof (split_folders_base t) as Hsplit.
  rewrite Hsplit at 2. now rewrite app_assoc, last_last.
Qed.

(** Appending separator-free text extends the last piece. *)
Lemma split_append_tail (sep : ascii) (f e : string) (pieces : list string)
    (final : string) :
  hasUnit sep e = false ->
  Js.split sep f = (pieces ++ [final])%list ->
  Js.split sep (f ++ e) = (pieces ++ [(final ++ e)%string])%list.
Proof.
  intros He. revert pieces final.
  induction f as [|c f IH]; intros pieces final Hsplit; simpl in *.
  - destruct pieces as [|x [|y pieces]]; try discriminate Hsplit.
    injection Hsplit as <-. simpl. now apply split_no_sep.
  - destruct (Ascii.eqb c sep).
    + destruct pieces as [|x pieces].
      * exfalso. injection Hsplit as _ H. now apply (split_not_nil sep f).
      * injection Hsplit as <- H. simpl. now rewrite (IH _ _ H).
    + pose proof (app_removelast_last "" (split_not_nil sep f)) as Hf.
      rewrite (IH _ _ Hf). rewrite Hf in Hsplit.
      destruct (removelast (Js.split sep f)) as [|x body].
      * simpl in *. destruct pieces as [|y [|z pieces]]; try discriminate Hsplit.
        injection Hsplit as <-. reflexivity.
      * simpl in *. destruct pieces as [|y pieces].
        -- exfalso. injection Hsplit as _ H. now destruct body.
        -- injection Hsplit as <- H. simpl. f_equal.
           apply app_inj_tail in H as [-> ->]. reflexivity.
Qed.

Lemma finalFilenameOf_ends (folderPrefix name : string) :
  exists front, finalFilenameOf folderPrefix name = front ++ name.
Proof.
  unfold finalFilenameOf. destruct (Js.startsWith name folderPrefix).
  - now exists "".
  - now exists folderPrefix.
Qed.

Lemma join_snoc (sep : string) (l : list string) (x : string) :
  l <> [] -> Js.join sep (l ++ [x]) = Js.join sep l ++ sep ++ x.
Proof.
  unfold Js.join. induction l as [|y l IH]; intros Hne; [contradiction|].
  destruct l as [|z l]; [reflexivity|].
  change (String.concat sep ((y :: z :: l) ++ [x]))
    with (y ++ sep ++ String.concat sep ((z :: l) ++ [x])).
  rewrite IH by discriminate.
  change (String.concat sep (y :: z :: l))
    with (y ++ sep ++ String.concat sep (z :: l)).
  now rewrite !append_assoc.
Qed.

Lemma prefixPartsOf_root (r : string) (parts : list string) :
  r <> "" -> exists more, prefixPartsOf (Some r) parts = r :: more.
Proof.
  intros Hr. apply truthyString_true in Hr. unfold prefixPartsOf.
  cbn [Js.truthy]. rewrite Hr. cbn [app].
  destruct (_ && _); eexists; reflexivity.
Qed.

Lemma prefixPartsOf_no_root (parts : list string) :
  prefixPartsOf None parts = parts.
Proof. unfold prefixPartsOf. now destruct parts. Qed.

Lemma folderPrefixOf_root (r : string) (more : list string) :
  exists t, folderPrefixOf (r :: more) = (r ++ "-") ++ t.
Proof.
  unfold folderPrefixOf, Js.join. cbn [List.length Nat.ltb Nat.leb].
  destruct more as [|x more].
  - exists "". simpl. now rewrite append_empty_r.
  - exists (String.concat "-" (x :: more) ++ "-").
    change (String.concat "-" (r :: x :: more))
      with (r ++ "-" ++ String.concat "-" (x :: more)).
    now rewrite !append_assoc.
Qed.

(** Without an output root, the filename of a file below the documentation
    path is its relative path with the slashes turned into hyphens, unless
    the base filename already starts with the hyphenated folder prefix. *)
Lemma filename_below_no_root (documentPath rel outputDirectory : string) :
  hasUnit "\" documentPath = false ->
  let parts := Js.split "/" (Js.replaceAll "\" "/" rel) in
  removelast parts = [] \/
  Js.startsWith (last parts "") (folderPrefixOf (removelast parts)) = false ->
  filename (buildOutputLocation (documentPath ++ "/" ++ rel) documentPath
                                None outputDirectory)
  = Js.join "-" parts.
Proof.
  intros Hdp parts Hcase.
  pose proof (split_folders_base (Js.replaceAll "\" "/" rel)) as Hsplit.
  fold parts in Hsplit.
  remember (removelast parts) as folders eqn:Hfolders.
  remember (last parts "") as base eqn:Hbase.
  assert (Hrel : Js.split "/" (relativePathOf (documentPath ++ "/" ++ rel)
                                              documentPath)
                 = (folders ++ [base])%list).
  { rewrite relativePathOf_below by exact Hdp. exact Hsplit. }
  rewrite (buildOutputLocation_pieces _ _ _ _ _ _ Hrel). simpl filename.
  rewrite prefixPartsOf_no_root, Hsplit.
  destruct folders as [|x folders].
  - now destruct base.
  - destruct Hcase as [Hnil|Hstart]; [discriminate Hnil|].
    unfold finalFilenameOf. rewrite Hstart.
    rewrite join_snoc by discriminate.
    unfold folderPrefixOf. cbn [List.length Nat.ltb Nat.leb].
    now rewrite append_assoc.
Qed.

Lemma filename_keeps_ending
    (filePath documentPath : string) (outputRoot : option string)
    (outputDirectory ext : string) :
  hasUnit "/" ext = false ->
  hasUnit "\" ext = false ->
  Js.endsWith filePath ext = true ->
  Js.endsWith (filename (buildOutputLocation filePath documentPath
                                             outputRoot outputDirectory))
              ext = true.
Proof.
  intros Hslash Hback Hends.
  apply endsWith_iff in Hends as [front ->].
  unfold buildOutputLocation. simpl filename.
  rewrite base_of_relativePathOf, replaceAll_append,
          (replaceAll_absent _ _ ext Hback).
  rewrite (split_append_tail "/" _ ext _ _ Hslash (split_folders_base _)),
          last_last.
  destruct (finalFilenameOf_ends
              (folderPrefixOf
                 (prefixPartsOf outputRoot
                    (removelast
                       (Js.split "/"
                          (relativePathOf (front ++ ext) documentPath)))))
              (last (Js.split "/" (Js.replaceAll "\" "/" front)) "" ++ ext))
    as [pre ->].
  apply endsWith_iff.
  exists (pre ++ last (Js.split "/" (Js.replaceAll "\" "/" front)) "").
  now rewrite append_assoc.
Qed.

(** ** Further properties of [buildOutputLocation] *)

(** X5. When the output root is a non-empty string, every filename starts
    with the root followed by a hyphen: the directory name is always part of
    the filename. *)
Theorem buildOutputLocation_filename_starts_with_root :
  forall filePath documentPath r outputDirectory,
    r <> "" ->
    Js.startsWith (filename (buildOutputLocation filePath documentPath
                                                 (Some r) outputDirectory))
                  (r ++ "-") = true.
Proof.
  intros filePath documentPath r outputDirectory Hr.
  rewrite (buildOutputLocation_pieces
             filePath documentPath (Some r) outputDirectory _ _
             (split_folders_base _)).
  simpl filename.
  destruct (prefixPartsOf_root r
              (removelast (Js.split "/" (relativePathOf filePath documentPath)))
              Hr) as [more ->].
  destruct (folderPrefixOf_root r more) as [t Ht].
  pose proof (finalFilenameOf_startsWith
                (folderPrefixOf (r :: more))
                (last (Js.split "/" (relativePathOf filePath documentPath)) ""))
    as Hstart.
  apply startsWith_iff in Hstart as [u Hu].
  apply startsWith_iff. exists (t ++ u).
  now rewrite Hu, Ht, append_assoc.
Qed.

Lemma buildOutputLocation_filename_starts_with_root_witness :
  Js.startsWith
    (filename (buildOutputLocation "packages/react/docs/react-api/hooks.md"
                                   "packages/react/docs" (Some "react-docs")
                                   "./output"))
    "react-docs-" = true.
Proof.
  assert (Hr : "react-docs" <> "") by discriminate.
  exact (buildOutputLocation_filename_starts_with_root
           "packages/react/docs/react-api/hooks.md" "packages/react/docs"
           "react-docs" "./output" Hr).
Defined.

(** X6. The filename keeps the ending of the file path: if the path ends with
    a text that holds no separator (an extension such as .md or .mdx), so does
    the filename. *)
Theorem buildOutputLocation_keeps_extension :
  forall filePath documentPath outputRoot outputDirectory ext,
    hasUnit "/" ext = false ->
    hasUnit "\" ext = false ->
    Js.endsWith filePath ext = true ->
    Js.endsWith (filename (buildOutputLocation filePath documentPath
                                               outputRoot outputDirectory))
                ext = true.
Proof. exact filename_keeps_ending. Qed.

Lemma buildOutputLocation_keeps_extension_witness :
  Js.endsWith (filename (buildOutputLocation "docs\api\getting-started.mdx"
                                             "docs" None "./output"))
              ".mdx" = true.
Proof.
  exact (buildOutputLocation_keeps_extension
           "docs\api\getting-started.mdx" "docs" None "./output" ".mdx"
           eq_refl eq_refl eq_refl).
Defined.

(** X7. The location depends on the file path only through its form with
    every backslash turned into a slash: file paths that differ in the kind
    of separator alone get the same location, and a path already in slash
    form gets the location of the original. *)
Theorem buildOutputLocation_separator_kind :
  (forall filePath filePath' documentPath outputRoot outputDirectory,
      Js.replaceAll "\" "/" filePath = Js.replaceAll "\" "/" filePath' ->
      buildOutputLocation filePath documentPath outputRoot outputDirectory
      = buildOutputLocation filePath' documentPath outputRoot outputDirectory) /\
  (forall filePath documentPath outputRoot outputDirectory,
      buildOutputLocation (Js.replaceAll "\" "/" filePath) documentPath
                          outputRoot outputDirectory
      = buildOutputLocation filePath documentPath outputRoot outputDirectory).
Proof.
  assert (Hsame : forall filePath filePath' documentPath outputRoot outputDirectory,
             Js.replaceAll "\" "/" filePath = Js.replaceAll "\" "/" filePath' ->
             buildOutputLocation filePath documentPath outputRoot outputDirectory
             = buildOutputLocation filePath' documentPath outputRoot
                                   outputDirectory).
  { intros filePath filePath' documentPath outputRoot outputDirectory H.
    unfold buildOutputLocation, relativePathOf. now rewrite H. }
  split; [exact Hsame|].
  intros. apply Hsame, replaceAll_again.
Qed.

Lemma buildOutputLocation_separator_kind_witness :
  buildOutputLocation "docs\code/api\hooks.md" "docs/code" (Some "code") "out"
  = buildOutputLocation "docs/code\api/hooks.md" "docs/code" (Some "code") "out".
Proof.
  exact (proj1 buildOutputLocation_separator_kind
               "docs\code/api\hooks.md" "docs/code\api/hooks.md"
               "docs/code" (Some "code") "out" eq_refl).
Defined.

(** X8. With the output root that [computeOutputRoot] returns, for whatever
    documentation path, the filename never contains a slash. *)
Theorem pipeline_filename_no_slash :
  forall filePath documentPath rootPath outputDirectory,
    hasUnit "/" (filename (buildOutputLocation filePath documentPath
                                               (computeOutputRoot rootPath)
                                               outputDirectory)) = false.
Proof.
  intros filePath documentPath rootPath outputDirectory.
  apply hasUnit_filename.
  - reflexivity.
  - intros piece. apply split_pieces_no_sep.
  - intros r. apply computeOutputRoot_no_slash.
Qed.

(** X9. Without an output root, the filename of a file below the
    documentation path is its relative path with the slashes replaced by
    hyphens, provided the file lies directly in the documentation path or its
    base filename does not already start with the hyphenated folder prefix. *)
Theorem buildOutputLocation_flattens_relative_path :
  forall documentPath rel outputDirectory,
    hasUnit "\" documentPath = false ->
    let parts := Js.split "/" (Js.replaceAll "\" "/" rel) in
    removelast parts = [] \/
    Js.startsWith (last parts "") (folderPrefixOf (removelast parts)) = false ->
    filename (buildOutputLocation (documentPath ++ "/" ++ rel) documentPath
                                  None outputDirectory)
    = Js.join "-" parts.
Proof. exact filename_below_no_root. Qed.

Lemma buildOutputLocation_flattens_relative_path_witness :
  filename (buildOutputLocation ("docs" ++ "/" ++ "api/v1/getting-started.mdx")
                                "docs" None "./output")
  = Js.join "-" ["api"; "v1"; "getting-started.mdx"].
Proof.
  exact (buildOutputLocation_flattens_relative_path
           "docs" "api/v1/getting-started.mdx" "./output" eq_refl
           (or_intror eq_refl)).
Defined.

(** X10. Flattening is not injective: below one documentation path and
    without an output root, the file b in folder a and the file a-b get the
    same location, although their paths differ. *)
Theorem buildOutputLocation_collision :
  forall documentPath a b outputDirectory,
    hasUnit "\" documentPath = false ->
    hasUnit "/" a = false -> hasUnit "\" a = false ->
    hasUnit "/" b = false -> hasUnit "\" b = false ->
    Js.startsWith b (a ++ "-") = false ->
    documentPath ++ "/" ++ a ++ "/" ++ b <> documentPath ++ "/" ++ a ++ "-" ++ b /\
    buildOutputLocation (documentPath ++ "/" ++ a ++ "/" ++ b) documentPath
                        None outputDirectory
    = buildOutputLocation (documentPath ++ "/" ++ a ++ "-" ++ b) documentPath
                          None outputDirectory.
Proof.
  intros documentPath a b outputDirectory Hdp Ha Ha' Hb Hb' Hstart. split.
  - intros Heq.
    assert (Hcut : forall u x y : string, u ++ x = u ++ y -> x = y).
    { intros u x y. induction u as [|c u IH]; simpl; intros H; [exact H|].
      injection H as H. now apply IH. }
    apply Hcut in Heq. change ("/" ++ a ++ "/" ++ b) with (String "/" (a ++ "/" ++ b)) in Heq.
    change ("/" ++ a ++ "-" ++ b) with (String "/" (a ++ "-" ++ b)) in Heq.
    injection Heq as Heq. apply Hcut in Heq. discriminate Heq.
  - assert (Hfolder : Js.split "/" (Js.replaceAll "\" "/" (a ++ "/" ++ b))
                      = [a; b]).
    { rewrite replaceAll_absent.
      - change ("/" ++ b) with (String "/" b).
        now rewrite split_glue, !split_no_sep.
      - now rewrite hasUnit_append, Ha'. }
    assert (Hflat : Js.split "/" (Js.replaceAll "\" "/" (a ++ "-" ++ b))
                    = [a ++ "-" ++ b]).
    { rewrite replaceAll_absent.
      - apply split_no_sep. now rewrite !hasUnit_append, Ha, Hb.
      - now rewrite !hasUnit_append, Ha', Hb'. }
    assert (Hname : forall rel,
               filename (buildOutputLocation (documentPath ++ "/" ++ rel)
                                             documentPath None outputDirectory)
               = a ++ "-" ++ b ->
               buildOutputLocation (documentPath ++ "/" ++ rel)
                                   documentPath None outputDirectory
               = {| directory := outputDirectory;
                    filename := a ++ "-" ++ b |}).
    { intros rel H. rewrite <- H. reflexivity. }
    rewrite (Hname (a ++ "/" ++ b)), (Hname (a ++ "-" ++ b)); [reflexivity| |].
    + rewrite filename_below_no_root; [now rewrite Hflat|exact Hdp|].
      left. now rewrite Hflat.
    + rewrite filename_below_no_root; [now rewrite Hfolder|exact Hdp|].
      right. rewrite Hfolder. exact Hstart.
Qed.

Lemma buildOutputLocation_collision_witness :
  "docs" ++ "/" ++ "api" ++ "/" ++ "hooks.md"
  <> "docs" ++ "/" ++ "api" ++ "-" ++ "hooks.md" /\
  buildOutputLocation ("docs" ++ "/" ++ "api" ++ "/" ++ "hooks.md") "docs"
                      None "./output"
  = buildOutputLocation ("docs" ++ "/" ++ "api" ++ "-" ++ "hooks.md") "docs"
                        None "./output".
Proof.
  exact (buildOutputLocation_collision
           "docs" "api" "hooks.md" "./output"
           eq_refl eq_refl eq_refl eq_refl eq_refl eq_refl).
Defined.

Example fetch_sample :
  fetchAllFiles sampleRepository 2 "docs"
  = Some (["docs/old"],
          Returned [mkItem "file" "guide.md" "docs/guide.md";
                    mkItem "file" "getting-started.mdx"
                           "docs/api/getting-started.mdx"]).
Proof. reflexivity. Qed.

Example fetch_sample_refused :
  fetchAllFiles sampleRepository 1 "private"
  = Some ([], Threw (mkJsError (Some 403) "Forbidden")).
Proof. reflexivity. Qed.

(** ** Properties of [fetchAllFiles] *)

Section RemoteFacts.

Variable getContent : string -> Response.

Lemma collectFiles_wellBehaved
    (recur : string -> option (Run (list Item))) :
  (forall path run, recur path = Some run -> wellBehaved getContent run) ->
  forall contents files run,
    Forall (fun item => isMarkdownFile item = true) files ->
    collectFiles recur contents files = Some run ->
    wellBehaved getContent run.
Proof.
  intros Hrecur. induction contents as [|item rest IH]; intros files run Hfiles.
  - simpl. intros H. injection H as <-. split; [intros path []|exact Hfiles].
  - simpl. destruct (item_type item =? "dir").
    + destruct (recur (item_path item)) as [[warned [subFiles|e]]|] eqn:Hcall;
        [| |discriminate].
      * destruct (Hrecur _ _ Hcall) as [Hwarned Hsub]. simpl in Hwarned, Hsub.
        destruct (collectFiles recur rest (files ++ subFiles))
          as [[warned' outcome]|] eqn:Hrest; [|discriminate].
        intros H. injection H as <-.
        destruct (IH (files ++ subFiles)%list (warned', outcome)) as [Hw Ho].
        -- apply Forall_app. now split.
        -- exact Hrest.
        -- split; [|exact Ho]. simpl. intros path Hin.
           apply in_app_or in Hin as [Hin|Hin]; [now apply Hwarned|now apply Hw].
      * intros H. injection H as <-. exact (Hrecur _ _ Hcall).
    + destruct (isMarkdownFile item) eqn:Hmd.
      * apply IH. apply Forall_app. split; [exact Hfiles|].
        constructor; [exact Hmd|constructor].
      * now apply IH.
Qed.

Lemma fetchAllFiles_wellBehaved (fuel : nat) :
  forall directoryPath run,
    fetchAllFiles getContent fuel directoryPath = Some run ->
    wellBehaved getContent run.
Proof.
  induction fuel as [|fuel IH]; intros directoryPath run; [discriminate|].
  simpl.
  destruct (getContent directoryPath) as [contents| |e] eqn:Hget.
  - destruct (collectFiles (fetchAllFiles getContent fuel) contents [])
      as [[warned [files|e]]|] eqn:Hloop; [| |discriminate].
    + intros H. injection H as <-.
      exact (collectFiles_wellBehaved _ IH contents [] _ (Forall_nil _) Hloop).
    + pose proof (collectFiles_wellBehaved _ IH contents [] _ (Forall_nil _) Hloop)
        as [Hw He].
      simpl in He. rewrite He. intros H. injection H as <-. now split.
  - simpl. intros H. injection H as <-. split; [intros path []|reflexivity].
  - destruct (statusIs404 e) eqn:He; intros H; injection H as <-.
    + split; [|constructor]. simpl. intros path [<-|[]]. now exists e.
    + split; [intros path []|exact He].
Qed.

(** X11. Whatever the repository, every entry [fetchAllFiles] returns is of
    type file and has a name ending in .md or .mdx. *)
Theorem fetchAllFiles_only_markdown :
  forall fuel directoryPath warned files,
    fetchAllFiles getContent fuel directoryPath = Some (warned, Returned files) ->
    forall item, In item files ->
      item_type item = "file" /\
      (Js.endsWith (item_name item) ".md" = true \/
       Js.endsWith (item_name item) ".mdx" = true).
Proof.
  intros fuel directoryPath warned files Hrun item Hin.
  destruct (fetchAllFiles_wellBehaved _ _ _ Hrun) as [_ Hfiles].
  simpl in Hfiles. rewrite Forall_forall in Hfiles.
  specialize (Hfiles item Hin). unfold isMarkdownFile in Hfiles.
  apply andb_true_iff in Hfiles as [Htype Hname].
  apply String.eqb_eq in Htype. apply orb_true_iff in Hname. now split.
Qed.

(** X12. [fetchAllFiles] never throws an error whose status is 404: a missing
    path, at any depth, is skipped and not propagated. *)
Theorem fetchAllFiles_never_throws_404 :
  forall fuel directoryPath warned e,
    fetchAllFiles getContent fuel directoryPath = Some (warned, Threw e) ->
    error_status e <> Some 404.
Proof.
  intros fuel directoryPath warned e Hrun Hstatus.
  destruct (fetchAllFiles_wellBehaved _ _ _ Hrun) as [_ He].
  simpl in He. unfold statusIs404 in He. rewrite Hstatus in He. discriminate He.
Qed.

(** X13. Every warning reports a path whose own request was rejected with
    status 404; a directory is never reported as missing because of what
    happened below it. *)
Theorem fetchAllFiles_warnings_truthful :
  forall fuel directoryPath warned outcome,
    fetchAllFiles getContent fuel directoryPath = Some (warned, outcome) ->
    forall path, In path warned ->
      exists e, getContent path = Rejected e /\ error_status e = Some 404.
Proof.
  intros fuel directoryPath warned outcome Hrun path Hin.
  destruct (fetchAllFiles_wellBehaved _ _ _ Hrun) as [Hwarned _].
  destruct (Hwarned path Hin) as [e [Hget He]].
  exists e. split; [exact Hget|].
  unfold statusIs404 in He. destruct (error_status e) as [n|]; [|discriminate].
  apply Nat.eqb_eq in He. now subst.
Qed.

Lemma collectFiles_flat (recur : string -> option (Run (list Item))) :
  forall contents files,
    (forall item, In item contents -> item_type item <> "dir") ->
    collectFiles recur contents files
    = Some ([], Returned (files ++ filter isMarkdownFile contents)%list).
Proof.
  induction contents as [|item rest IH]; intros files Hflat; simpl.
  - now rewrite app_nil_r.
  - assert (Hitem : (item_type item =? "dir") = false).
    { apply String.eqb_neq, Hflat. now left. }
    rewrite Hitem.
    assert (Hrest : forall i, In i rest -> item_type i <> "dir").
    { intros i Hi. apply Hflat. now right. }
    destruct (isMarkdownFile item).
    + rewrite (IH _ Hrest), <- app_assoc. reflexivity.
    + now rewrite (IH _ Hrest).
Qed.

(** X14. For a directory without sub-directories [fetchAllFiles] returns,
    without any warning, exactly the Markdown files of the listing, in the
    order of the listing. *)
Theorem fetchAllFiles_flat_directory :
  forall fuel directoryPath contents,
    getContent directoryPath = Listing contents ->
    (forall item, In item contents -> item_type item <> "dir") ->
    fetchAllFiles getContent (S fuel) directoryPath
    = Some ([], Returned (filter isMarkdownFile contents)).
Proof.
  intros fuel directoryPath contents Hget Hflat.
  simpl. rewrite Hget, (collectFiles_flat _ contents [] Hflat). reflexivity.
Qed.

Lemma collectFiles_returns (recur : string -> option (Run (list Item))) :
  forall contents files,
    (forall item, In item contents -> item_type item = "dir" ->
                  exists run, recur (item_path item) = Some run) ->
    exists run, collectFiles recur contents files = Some run.
Proof.
  induction contents as [|item rest IH]; intros files Hdirs; simpl.
  - eexists; reflexivity.
  - assert (Hrest : forall i, In i rest -> item_type i = "dir" ->
                              exists run, recur (item_path i) = Some run).
    { intros i Hi. apply Hdirs. now right. }
    destruct (item_type item =? "dir") eqn:Hdir.
    + apply String.eqb_eq in Hdir.
      destruct (Hdirs item (or_introl eq_refl) Hdir) as [[warned [sub|e]] ->].
      * destruct (IH (files ++ sub)%list Hrest) as [[warned' outcome] ->].
        eexists; reflexivity.
      * eexists; reflexivity.
    + destruct (isMarkdownFile item); now apply IH.
Qed.

Section Termination.

Variable depth : string -> nat.

Hypothesis depth_decreases :
  forall directoryPath contents item,
    getContent directoryPath = Listing contents ->
    In item contents -> item_type item = "dir" ->
    depth (item_path item) < depth directoryPath.

Lemma fetchAllFiles_returns_within (fuel : nat) :
  forall directoryPath,
    depth directoryPath < fuel ->
    exists run, fetchAllFiles getContent fuel directoryPath = Some run.
Proof.
  induction fuel as [|fuel IH]; intros directoryPath Hdepth; [lia|].
  simpl. destruct (getContent directoryPath) as [contents| |e] eqn:Hget.
  - destruct (collectFiles_returns (fetchAllFiles getContent fuel) contents [])
      as [[warned [files|e]] ->].
    + intros item Hin Hdir. apply IH.
      pose proof (depth_decreases _ _ _ Hget Hin Hdir). lia.
    + eexists; reflexivity.
    + destruct (statusIs404 e); eexists; reflexivity.
  - simpl. eexists; reflexivity.
  - destruct (statusIs404 e); eexists; reflexivity.
Qed.

End Termination.

End RemoteFacts.

(** X15. The walk comes back on every repository whose directories nest
    finitely: if some depth strictly decreases from a listed directory to the
    sub-directories it lists, a bound above the depth of the starting path is
    enough for [fetchAllFiles] to finish, with a result or an error. *)
Theorem fetchAllFiles_terminates :
  forall (getContent : string -> Response) (depth : string -> nat),
    (forall directoryPath contents item,
        getContent directoryPath = Listing contents ->
        In item contents -> item_type item = "dir" ->
        depth (item_path item) < depth directoryPath) ->
    forall directoryPath,
    exists run,
      fetchAllFiles getContent (S (depth directoryPath)) directoryPath = Some run.
Proof.
  intros getContent depth Hdepth directoryPath.
  apply (fetchAllFiles_returns_within getContent depth Hdepth). lia.
Qed.

Lemma sampleRepository_nests_finitely :
  forall directoryPath contents item,
    sampleRepository directoryPath = Listing contents ->
    In item contents -> item_type item = "dir" ->
    sampleDepth (item_path item) < sampleDepth directoryPath.
Proof.
  intros directoryPath contents item Hget Hin Hdir.
  unfold sampleRepository, sampleDepth in *.
  destruct (directoryPath =? "docs").
  - injection Hget as <-.
    destruct Hin as [<-|[<-|[<-|[<-|[<-|[]]]]]];
      try discriminate Hdir; simpl; lia.
  - destruct (directoryPath =? "docs/api").
    + injection Hget as <-. destruct Hin as [<-|[]]. discriminate Hdir.
    + destruct (directoryPath =? "private"); [discriminate Hget|].
      destruct (directoryPath =? "README.md"); discriminate Hget.
Defined.

Lemma fetchAllFiles_terminates_witness :
  exists run, fetchAllFiles sampleRepository (S (sampleDepth "docs")) "docs"
              = Some run.
Proof.
  exact (fetchAllFiles_terminates sampleRepository sampleDepth
                                  sampleRepository_nests_finitely "docs").
Defined.

Lemma fetchAllFiles_only_markdown_witness :
  item_type (mkItem "file" "getting-started.mdx" "docs/api/getting-started.mdx")
  = "file" /\
  (Js.endsWith "getting-started.mdx" ".md" = true \/
   Js.endsWith "getting-started.mdx" ".mdx" = true).
Proof.
  refine (fetchAllFiles_only_markdown
            sampleRepository 2 "docs" ["docs/old"] _ eq_refl
            (mkItem "file" "getting-started.mdx" "docs/api/getting-started.mdx")
            _).
  right. left. reflexivity.
Defined.

Lemma fetchAllFiles_never_throws_404_witness :
  Some 403 <> Some 404.
Proof.
  exact (fetchAllFiles_never_throws_404
           sampleRepository 1 "private" [] (mkJsError (Some 403) "Forbidden")
           eq_refl).
Defined.

Lemma fetchAllFiles_warnings_truthful_witness :
  exists e, sampleRepository "docs/old" = Rejected e /\
            error_status e = Some 404.
Proof.
  refine (fetchAllFiles_warnings_truthful
            sampleRepository 2 "docs" ["docs/old"] _ eq_refl "docs/old" _).
  left. reflexivity.
Defined.

Lemma fetchAllFiles_flat_directory_witness :
  fetchAllFiles sampleRepository 1 "docs/api"
  = Some ([], Returned [mkItem "file" "getting-started.mdx"
                               "docs/api/getting-started.mdx"]).
Proof.
  refine (fetchAllFiles_flat_directory
            sampleRepository 0 "docs/api" _ eq_refl _).
  intros item [<-|[]]. discriminate.
Defined.

Lemma startsWith_cancel (u x y : string) :
  Js.startsWith (u ++ x) (u ++ y) = Js.startsWith x y.
Proof.
  unfold Js.startsWith. induction u as [|c u IH]; simpl; [reflexivity|].
  destruct (ascii_dec c c) as [_|Hc]; [exact IH|now elim Hc].
Qed.

(** X16. The documentation path is compared as it was typed: when it is given
    with a trailing slash, a file below it does not start with the path
    followed by a further slash, so nothing is stripped and the whole
    normalized path is flattened, the documentation path's own segments
    included. *)
Theorem buildOutputLocation_trailing_slash :
  forall documentPath rel outputRoot outputDirectory,
    hasUnit "\" documentPath = false ->
    Js.startsWith (Js.replaceAll "\" "/" rel) "/" = false ->
    let whole := documentPath ++ "/" ++ Js.replaceAll "\" "/" rel in
    relativePathOf (documentPath ++ "/" ++ rel) (documentPath ++ "/") = whole /\
    buildOutputLocation (documentPath ++ "/" ++ rel) (documentPath ++ "/")
                        outputRoot outputDirectory
    = {| directory := directoryOf outputRoot outputDirectory;
         filename :=
           finalFilenameOf
             (folderPrefixOf
                (prefixPartsOf outputRoot (removelast (Js.split "/" whole))))
             (last (Js.split "/" whole) "") |}.
Proof.
  intros documentPath rel outputRoot outputDirectory Hdp Hrel whole.
  assert (Hwhole : relativePathOf (documentPath ++ "/" ++ rel)
                                  (documentPath ++ "/") = whole).
  { unfold relativePathOf.
    rewrite replaceAll_append, (replaceAll_absent _ _ _ Hdp).
    change (Js.replaceAll "\" "/" ("/" ++ rel))
      with ("/" ++ Js.replaceAll "\" "/" rel).
    fold whole. unfold whole at 1.
    rewrite <- (append_assoc documentPath "/" (Js.replaceAll "\" "/" rel)).
    now rewrite startsWith_cancel, Hrel. }
  split; [exact Hwhole|].
  rewrite (buildOutputLocation_pieces
             _ _ outputRoot outputDirectory _ _ (split_folders_base _)).
  now rewrite Hwhole.
Qed.

Lemma buildOutputLocation_trailing_slash_witness :
  relativePathOf ("docs" ++ "/" ++ "guide.md") ("docs" ++ "/")
  = "docs/guide.md" /\
  buildOutputLocation ("docs" ++ "/" ++ "guide.md") ("docs" ++ "/")
                      (computeOutputRoot "docs/") "./output"
  = {| directory := "./output"; filename := "docs-guide.md" |}.
Proof.
  exact (buildOutputLocation_trailing_slash
           "docs" "guide.md" (computeOutputRoot "docs/") "./output"
           eq_refl eq_refl).
Defined.

(** ** Facts about the regular expressions *)

Lemma sameLetter_refl (c : ascii) : Re.sameLetter c c = true.
Proof. apply Ascii.eqb_refl. Qed.

Lemma matchText_same (t rest : string) : Re.matchText t (t ++ rest) = Some rest.
Proof.
  induction t as [|c t IH]; simpl; [reflexivity|].
  now rewrite sameLetter_refl.
Qed.

Lemma take_append (u v : string) : Re.take (String.length u) (u ++ v) = u.
Proof. induction u as [|c u IH]; simpl; [now destruct v|now rewrite IH]. Qed.

Lemma hasUnit_take (d : ascii) (n : nat) (s : string) :
  hasUnit d s = false -> hasUnit d (Re.take n s) = false.
Proof.
  revert s. induction n as [|n IH]; intros s H; [reflexivity|].
  destruct s as [|c s]; [reflexivity|]. simpl in *.
  apply orb_false_iff in H as [Hc Hs]. now rewrite Hc, IH.
Qed.

Lemma notSlash_of_hasUnit (c : ascii) (s : string) :
  hasUnit "/" (String c s) = false ->
  notSlash c = true /\ hasUnit "/" s = false.
Proof.
  simpl. intros H. apply orb_false_iff in H as [Hc Hs].
  unfold notSlash. now rewrite Hc.
Qed.

(** A pattern anchored at the start can only match at index 0. *)
Lemma execFrom_anchored_later (r : Re.Regex) (rest : string) :
  forall index, 0 < index -> Re.execFrom (Re.Then Re.AtStart r) index rest = None.
Proof.
  induction rest as [|c rest IH]; intros index Hpos;
    destruct index as [|index]; try lia; simpl.
  - reflexivity.
  - apply IH. lia.
Qed.

Lemma exec_anchored (r : Re.Regex) (s : string) :
  Re.exec (Re.Then Re.AtStart r) s
  = match Re.matchRegex r Re.matched 0 s [] with
    | Some (stop, caps) => Some (0, stop, caps)
    | None => None
    end.
Proof.
  unfold Re.exec. destruct s as [|c s]; simpl.
  - now destruct (Re.matchRegex r Re.matched 0 "" []) as [[stop caps]|].
  - destruct (Re.matchRegex r Re.matched 0 (String c s) []) as [[stop caps]|];
      [reflexivity|].
    apply execFrom_anchored_later. lia.
Qed.

Lemma endsWithIgnoringCase_tail (c : ascii) (s suffix : string) :
  endsWithIgnoringCase (String c s) suffix = false ->
  endsWithIgnoringCase s suffix = false.
Proof.
  simpl. destruct (Re.matchText suffix (String c s)) as [[|d left]|]; 
    [discriminate|auto|auto].
Qed.

Lemma endsWithIgnoringCase_head (s suffix : string) :
  endsWithIgnoringCase s suffix = false -> Re.matchText suffix s <> Some "".
Proof.
  intros H Hm. destruct s as [|c s]; simpl in H; rewrite Hm in H; discriminate H.
Qed.

(** Nothing is stripped from a name that does not end in .git. *)
Lemma replace_gitSuffix_absent (s : string) :
  endsWithIgnoringCase s ".git" = false ->
  Re.replace gitSuffixPattern "" s = s.
Proof.
  intros Hs. unfold Re.replace, Re.exec.
  assert (Hnone : forall index, Re.execFrom gitSuffixPattern index s = None).
  { induction s as [|c s IH]; intros index.
    - reflexivity.
    - pose proof (endsWithIgnoringCase_head _ _ Hs) as Hhead.
      cbn [Re.execFrom gitSuffixPattern Re.matchRegex].
      destruct (Re.matchText ".git" (String c s)) as [[|d left]|].
      + now elim Hhead.
      + apply IH. now apply endsWithIgnoringCase_tail in Hs.
      + apply IH. now apply endsWithIgnoringCase_tail in Hs. }
  now rewrite Hnone.
Qed.

(** A greedy run of non-slash units ends where the slash is, if what follows
    the run can be matched from there. *)
Lemma greedy_run_to_slash (k : Re.Continuation) (w t : string) :
  w <> "" -> hasUnit "/" w = false ->
  forall index caps found,
    k (index + String.length w) (String "/" t) caps = Some found ->
    Re.matchOneOrMore false notSlash k index (w ++ String "/" t) caps
    = Some found.
Proof.
  induction w as [|c w IH]; intros Hne Hw index caps found Hk; [contradiction|].
  apply notSlash_of_hasUnit in Hw as [Hc Hw]. simpl. rewrite Hc.
  destruct w as [|d w].
  - simpl in *. replace (index + 1) with (S index) in Hk by lia. now rewrite Hk.
  - rewrite (IH ltac:(discriminate) Hw (S index) caps found); [reflexivity|].
    simpl String.length in *.
    replace (S index + S (String.length w))
      with (index + S (S (String.length w))) by lia.
    exact Hk.
Qed.

(** A lazy run of non-slash units goes on as long as what follows cannot be
    matched, and hands over at the end of the name. *)
Lemma lazy_run_to_end (k : Re.Continuation) (tail : string) :
  (forall v index caps,
      v <> "" -> hasUnit "/" v = false ->
      endsWithIgnoringCase v ".git" = false ->
      k index (v ++ tail) caps = None) ->
  forall name index caps found,
    name <> "" -> hasUnit "/" name = false ->
    endsWithIgnoringCase name ".git" = false ->
    k (index + String.length name) tail caps = Some found ->
    Re.matchOneOrMore true notSlash k index (name ++ tail) caps = Some found.
Proof.
  intros Hfail. induction name as [|c name IH];
    intros index caps found Hne Hname Hgit Hk; [contradiction|].
  pose proof (endsWithIgnoringCase_tail _ _ _ Hgit) as Hgit'.
  apply notSlash_of_hasUnit in Hname as [Hc Hname]. simpl. rewrite Hc.
  destruct name as [|d name].
  - simpl in *. replace (index + 1) with (S index) in Hk by lia. now rewrite Hk.
  - rewrite (Hfail (String d name) (S index) caps ltac:(discriminate) Hname Hgit').
    apply IH; try assumption; [discriminate|].
    simpl String.length in *.
    replace (S index + S (String.length name))
      with (index + S (S (String.length name))) by lia.
    exact Hk.
Qed.

Lemma sameLetter_slash (c : ascii) : Re.sameLetter "/" c = Ascii.eqb c "/".
Proof. destruct c as [[] [] [] [] [] [] [] []]; reflexivity. Qed.

Ltac crunch_tail :=
  repeat (cbn [Re.matchRegex Re.matchText append Re.matched];
          rewrite ?sameLetter_slash;
          repeat match goal with
                 | H : Ascii.eqb ?c "/" = false |- context [Ascii.eqb ?c "/"] =>
                     rewrite H
                 end;
          try reflexivity;
          match goal with
          | |- context [Re.sameLetter ?a ?b] =>
              let E := fresh "E" in destruct (Re.sameLetter a b) eqn:E
          end).

Lemma https_tail_fails (tail : string) :
  In tail [""; "/"; ".git"; ".git/"] ->
  forall v index caps,
    v <> "" -> hasUnit "/" v = false ->
    endsWithIgnoringCase v ".git" = false ->
    Re.matchRegex
      (Re.Then (Re.Optional (Re.Text ".git"))
               (Re.Then (Re.Optional (Re.Text "/")) Re.AtEnd))
      Re.matched index (v ++ tail) caps = None.
Proof.
  intros Htail v index caps Hne Hslash Hgit.
  destruct v as [|c1 [|c2 [|c3 [|c4 [|c5 v]]]]]; [contradiction| | | | |];
    cbn [hasUnit] in Hslash;
    repeat (apply orb_false_iff in Hslash as [? Hslash]);
    destruct Htail as [<-|[<-|[<-|[<-|[]]]]];
    crunch_tail.
  all: exfalso; cbn [endsWithIgnoringCase Re.matchText] in Hgit;
    rewrite E, E0, E1, E2 in Hgit; discriminate Hgit.
Qed.

(** The same for the end of the SSH pattern. *)
Lemma ssh_tail_fails (tail : string) :
  In tail [""; ".git"] ->
  forall v index caps,
    v <> "" -> hasUnit "/" v = false ->
    endsWithIgnoringCase v ".git" = false ->
    Re.matchRegex (Re.Then (Re.Optional (Re.Text ".git")) Re.AtEnd)
                  Re.matched index (v ++ tail) caps = None.
Proof.
  intros Htail v index caps Hne Hslash Hgit.
  destruct v as [|c1 [|c2 [|c3 [|c4 [|c5 v]]]]]; [contradiction| | | | |];
    cbn [hasUnit] in Hslash;
    repeat (apply orb_false_iff in Hslash as [? Hslash]);
    destruct Htail as [<-|[<-|[]]];
    crunch_tail.
  all: exfalso; cbn [endsWithIgnoringCase Re.matchText] in Hgit;
    rewrite E, E0, E1, E2 in Hgit; discriminate Hgit.
Qed.

Lemma lazy_name_then_tail (r : Re.Regex) (tail : string) :
  (forall v index caps,
      v <> "" -> hasUnit "/" v = false ->
      endsWithIgnoringCase v ".git" = false ->
      Re.matchRegex r Re.matched index (v ++ tail) caps = None) ->
  (forall index caps, exists stop,
      Re.matchRegex r Re.matched index tail caps = Some (stop, caps)) ->
  forall name index caps,
    name <> "" -> hasUnit "/" name = false ->
    endsWithIgnoringCase name ".git" = false ->
    exists stop,
      Re.matchRegex (Re.Then (Re.Group 2 (Re.OneOrMore true notSlash)) r)
                    Re.matched index (name ++ tail) caps
      = Some (stop, (2, name) :: caps).
Proof.
  intros Hfail Hdone name index caps Hne Hslash Hgit.
  destruct (Hdone (index + String.length name) ((2, name) :: caps))
    as [stop Hstop].
  exists stop. cbn [Re.matchRegex].
  apply lazy_run_to_end; try assumption.
  - intros v i c Hv Hvs Hvg. now apply Hfail.
  - replace (index + String.length name - index) with (String.length name)
      by lia.
    now rewrite take_append.
Qed.

Lemma greedy_owner_then (r : Re.Regex) (ownerName rest : string) :
  ownerName <> "" -> hasUnit "/" ownerName = false ->
  forall index found,
    Re.matchRegex r Re.matched (index + String.length ownerName + 1) rest
                  [(1, ownerName)] = Some found ->
    Re.matchRegex
      (Re.Then (Re.Group 1 (Re.OneOrMore false notSlash))
               (Re.Then (Re.Text "/") r))
      Re.matched index (ownerName ++ String "/" rest) [] = Some found.
Proof.
  intros Hne Hslash index found Hrest. cbn [Re.matchRegex].
  apply greedy_run_to_slash; try assumption.
  replace (index + String.length ownerName - index)
    with (String.length ownerName) by lia.
  rewrite take_append. cbn [Re.matchText].
  now rewrite sameLetter_refl.
Qed.

Section Accepted.

Variables ownerName repoName : string.

Hypothesis owner_not_empty : ownerName <> "".
Hypothesis owner_no_slash : hasUnit "/" ownerName = false.
Hypothesis repo_not_empty : repoName <> "".
Hypothesis repo_no_slash : hasUnit "/" repoName = false.
Hypothesis repo_no_git : endsWithIgnoringCase repoName ".git" = false.

Lemma exec_https_accepted (tail : string) :
  In tail [""; "/"; ".git"; ".git/"] ->
  exists stop,
    Re.exec httpsUrlPattern
            ("https://github.com/" ++ ownerName ++ "/" ++ repoName ++ tail)
    = Some (0, stop, [(2, repoName); (1, ownerName)]).
Proof.
  intros Htail. unfold httpsUrlPattern. rewrite exec_anchored.
  destruct (lazy_name_then_tail
              (Re.Then (Re.Optional (Re.Text ".git"))
                       (Re.Then (Re.Optional (Re.Text "/")) Re.AtEnd))
              tail (https_tail_fails tail Htail)) with
      (name := repoName)
      (index := 0 + String.length "https://github.com/"
                + String.length ownerName + 1)
      (caps := [(1, ownerName)])
    as [stop Hstop]; try assumption.
  - intros index caps.
    destruct Htail as [<-|[<-|[<-|[<-|[]]]]]; eexists; reflexivity.
  - exists stop.
    change (Re.matchRegex (Re.Then (Re.Text "https://github.com/") ?r)
                          Re.matched 0 ?s [])
      with (match Re.matchText "https://github.com/" s with
            | Some rest' =>
                Re.matchRegex r Re.matched
                              (0 + String.length "https://github.com/") rest' []
            | None => None
            end).
    rewrite matchText_same.
    change ("/" ++ repoName ++ tail) with (String "/" (repoName ++ tail)).
    rewrite (greedy_owner_then _ _ _ owner_not_empty owner_no_slash _ _ Hstop).
    reflexivity.
Qed.

Lemma exec_ssh_accepted (tail : string) :
  In tail [""; ".git"] ->
  exists stop,
    Re.exec sshUrlPattern
            ("git@github.com:" ++ ownerName ++ "/" ++ repoName ++ tail)
    = Some (0, stop, [(2, repoName); (1, ownerName)]).
Proof.
  intros Htail. unfold sshUrlPattern. rewrite exec_anchored.
  destruct (lazy_name_then_tail
              (Re.Then (Re.Optional (Re.Text ".git")) Re.AtEnd)
              tail (ssh_tail_fails tail Htail)) with
      (name := repoName)
      (index := 0 + String.length "git@github.com:"
                + String.length ownerName + 1)
      (caps := [(1, ownerName)])
    as [stop Hstop]; try assumption.
  - intros index caps.
    destruct Htail as [<-|[<-|[]]]; eexists; reflexivity.
  - exists stop.
    change (Re.matchRegex (Re.Then (Re.Text "git@github.com:") ?r)
                          Re.matched 0 ?s [])
      with (match Re.matchText "git@github.com:" s with
            | Some rest' =>
                Re.matchRegex r Re.matched
                              (0 + String.length "git@github.com:") rest' []
            | None => None
            end).
    rewrite matchText_same.
    change ("/" ++ repoName ++ tail) with (String "/" (repoName ++ tail)).
    rewrite (greedy_owner_then _ _ _ owner_not_empty owner_no_slash _ _ Hstop).
    reflexivity.
Qed.

Lemma exec_https_on_ssh (rest : string) :
  Re.exec httpsUrlPattern ("git@github.com:" ++ rest) = None.
Proof. unfold httpsUrlPattern. rewrite exec_anchored. reflexivity. Qed.

Lemma parseRepoUrl_of_captures (url : string) (start stop : nat) :
  (Re.exec httpsUrlPattern url
   = Some (start, stop, [(2, repoName); (1, ownerName)]) \/
   Re.exec httpsUrlPattern url = None /\
   Re.exec sshUrlPattern url
   = Some (start, stop, [(2, repoName); (1, ownerName)])) ->
  parseRepoUrl url
  = ([], Returned {| owner := ownerName; repo := repoName |}).
Proof.
  intros Hexec. unfold parseRepoUrl.
  assert (Hfound :
            match Re.exec httpsUrlPattern url with
            | Some _ => Re.exec httpsUrlPattern url
            | None => Re.exec sshUrlPattern url
            end = Some (start, stop, [(2, repoName); (1, ownerName)])).
  { destruct Hexec as [H|[H1 H2]]; [now rewrite H|now rewrite H1]. }
  rewrite Hfound. cbn [Re.capture Nat.eqb].
  apply truthyString_true in owner_not_empty, repo_not_empty.
  rewrite owner_not_empty, repo_not_empty. cbn [andb].
  now rewrite (replace_gitSuffix_absent _ repo_no_git).
Qed.

End Accepted.

(** ** Properties of [parseRepoUrl] *)

(** X17. For an owner and a repository name that are non-empty and free of
    slashes, the name not ending in .git, every documented way of writing the
    address is accepted and gives that owner and that name: the HTTPS address,
    bare or followed by a slash, by .git or by .git and a slash, and the SSH
    address, bare or followed by .git.  Nothing is written to the console. *)
Theorem parseRepoUrl_accepts :
  forall ownerName repoName url,
    ownerName <> "" -> hasUnit "/" ownerName = false ->
    repoName <> "" -> hasUnit "/" repoName = false ->
    endsWithIgnoringCase repoName ".git" = false ->
    In url ["https://github.com/" ++ ownerName ++ "/" ++ repoName;
            "https://github.com/" ++ ownerName ++ "/" ++ repoName ++ "/";
            "https://github.com/" ++ ownerName ++ "/" ++ repoName ++ ".git";
            "https://github.com/" ++ ownerName ++ "/" ++ repoName ++ ".git/";
            "git@github.com:" ++ ownerName ++ "/" ++ repoName;
            "git@github.com:" ++ ownerName ++ "/" ++ repoName ++ ".git"] ->
    parseRepoUrl url
    = ([], Returned {| owner := ownerName; repo := repoName |}).
Proof.
  intros ownerName repoName url Ho Hos Hr Hrs Hgit Hurl.
  assert (Hhttps : forall tail,
             In tail [""; "/"; ".git"; ".git/"] ->
             parseRepoUrl ("https://github.com/" ++ ownerName ++ "/"
                           ++ repoName ++ tail)
             = ([], Returned {| owner := ownerName; repo := repoName |})).
  { intros tail Htail.
    destruct (exec_https_accepted ownerName repoName Ho Hos Hr Hrs Hgit
                                  tail Htail) as [stop Hstop].
    apply (parseRepoUrl_of_captures ownerName repoName Ho Hr Hgit _ 0 stop).
    now left. }
  assert (Hssh : forall tail,
             In tail [""; ".git"] ->
             parseRepoUrl ("git@github.com:" ++ ownerName ++ "/"
                           ++ repoName ++ tail)
             = ([], Returned {| owner := ownerName; repo := repoName |})).
  { intros tail Htail.
    destruct (exec_ssh_accepted ownerName repoName Ho Hos Hr Hrs Hgit
                                tail Htail) as [stop Hstop].
    apply (parseRepoUrl_of_captures ownerName repoName Ho Hr Hgit _ 0 stop).
    right. split; [apply exec_https_on_ssh|exact Hstop]. }
  destruct Hurl as [<-|[<-|[<-|[<-|[<-|[<-|[]]]]]]].
  - rewrite <- (append_empty_r repoName) at 1. apply Hhttps. simpl; auto.
  - apply Hhttps. simpl; auto.
  - apply Hhttps. simpl; auto.
  - apply Hhttps. simpl; auto.
  - rewrite <- (append_empty_r repoName) at 1. apply Hssh. simpl; auto.
  - apply Hssh. simpl; auto.
Qed.

Lemma parseRepoUrl_accepts_witness :
  parseRepoUrl ("https://github.com/" ++ "vitest-dev" ++ "/" ++ "vitest" ++ ".git")
  = ([], Returned {| owner := "vitest-dev"; repo := "vitest" |}).
Proof.
  refine (parseRepoUrl_accepts
            "vitest-dev" "vitest" _ _ eq_refl _ eq_refl eq_refl _);
    [discriminate|discriminate|].
  right. right. left. reflexivity.
Defined.

(** X18. An address that does not begin, the case of letters aside, with
    https://github.com/ or with git@github.com: is refused: the error message
    is written to the console and an error carrying it is thrown. *)
Theorem parseRepoUrl_rejects_other_hosts :
  forall url,
    Re.matchText "https://github.com/" url = None ->
    Re.matchText "git@github.com:" url = None ->
    parseRepoUrl url
    = ([invalidUrlMessage], Threw (mkJsError None invalidUrlMessage)).
Proof.
  intros url Hhttps Hssh. unfold parseRepoUrl, httpsUrlPattern, sshUrlPattern.
  rewrite !exec_anchored. cbn [Re.matchRegex]. now rewrite Hhttps, Hssh.
Qed.

Lemma parseRepoUrl_rejects_other_hosts_witness :
  parseRepoUrl "https://notgithub.com/owner/repo"
  = ([invalidUrlMessage], Threw (mkJsError None invalidUrlMessage)).
Proof.
  exact (parseRepoUrl_rejects_other_hosts
           "https://notgithub.com/owner/repo" eq_refl eq_refl).
Defined.

Lemma add_sub_left (n m : nat) : n + m - n = m.
Proof. lia. Qed.

(** What a run of non-slash units, greedy or lazy, has consumed when the
    match succeeds. *)
Lemma matchOneOrMore_consumed (lazy : bool) (k : Re.Continuation) :
  forall rest index caps found,
    Re.matchOneOrMore lazy notSlash k index rest caps = Some found ->
    exists u v,
      rest = u ++ v /\ u <> "" /\ hasUnit "/" u = false /\
      k (index + String.length u) v caps = Some found.
Proof.
  induction rest as [|c rest IH]; intros index caps found; simpl;
    [discriminate|].
  destruct (notSlash c) eqn:Hc; [|discriminate].
  assert (Hc' : Ascii.eqb c "/" = false)
    by (unfold notSlash in Hc; now apply negb_true_iff in Hc).
  assert (Hone : k (S index) rest caps = Some found ->
                 exists u v,
                   String c rest = u ++ v /\ u <> "" /\
                   hasUnit "/" u = false /\
                   k (index + String.length u) v caps = Some found).
  { intros Hk. exists (String c ""), rest. simpl. rewrite Hc'.
    replace (index + 1) with (S index) by lia.
    repeat split; [discriminate|exact Hk]. }
  assert (Hmore : Re.matchOneOrMore lazy notSlash k (S index) rest caps
                  = Some found ->
                  exists u v,
                    String c rest = u ++ v /\ u <> "" /\
                    hasUnit "/" u = false /\
                    k (index + String.length u) v caps = Some found).
  { intros Hrec. destruct (IH _ _ _ Hrec) as [u [v [-> [Hu [Hus Hk]]]]].
    exists (String c u), v. simpl. rewrite Hc', Hus.
    replace (index + S (String.length u)) with (S index + String.length u)
      by lia.
    repeat split; [discriminate|exact Hk]. }
  destruct lazy.
  - destruct (k (S index) rest caps) as [found'|] eqn:Hk.
    + intros H. injection H as <-. now apply Hone.
    + exact Hmore.
  - destruct (Re.matchOneOrMore false notSlash k (S index) rest caps)
      as [found'|] eqn:Hrec.
    + intros H. injection H as <-. now apply Hmore.
    + exact Hone.
Qed.

Lemma matchText_slash (s rest : string) :
  Re.matchText "/" s = Some rest -> s = String "/" rest.
Proof.
  destruct s as [|c s]; simpl; [discriminate|].
  rewrite sameLetter_slash. destruct (Ascii.eqb c "/") eqn:Hc; [|discriminate].
  apply Ascii.eqb_eq in Hc. intros H. injection H as <-. now subst.
Qed.

(** The shape of an input matched by either address pattern, and the captures
    recorded. *)
Lemma address_shape (t : string) (tailPattern : Re.Regex) (url : string)
    (start stop : nat) (caps : Re.Captures) :
  (forall index rest caps0 found,
      Re.matchRegex tailPattern Re.matched index rest caps0 = Some found ->
      snd found = caps0) ->
  Re.exec
    (Re.Then Re.AtStart
    (Re.Then (Re.Text t)
    (Re.Then (Re.Group 1 (Re.OneOrMore false notSlash))
    (Re.Then (Re.Text "/")
    (Re.Then (Re.Group 2 (Re.OneOrMore true notSlash)) tailPattern)))))
    url = Some (start, stop, caps) ->
  exists rest u1 u2 v,
    Re.matchText t url = Some rest /\
    rest = u1 ++ "/" ++ u2 ++ v /\
    u1 <> "" /\ hasUnit "/" u1 = false /\
    u2 <> "" /\ hasUnit "/" u2 = false /\
    caps = [(2, u2); (1, u1)].
Proof.
  intros Htail. rewrite exec_anchored. cbn [Re.matchRegex].
  destruct (Re.matchText t url) as [rest|] eqn:Ht; [|discriminate].
  destruct (Re.matchOneOrMore _ _ _ _ _ _) as [[stop' caps']|] eqn:Hrun;
    [|discriminate].
  intros H. injection H as _ _ <-.
  apply matchOneOrMore_consumed in Hrun
    as [u1 [v1 [-> [Hu1 [Hu1s Hrun]]]]].
  rewrite add_sub_left, take_append in Hrun.
  destruct (Re.matchText "/" v1) as [rest2|] eqn:Hslash; [|discriminate].
  apply matchText_slash in Hslash. subst v1.
  apply matchOneOrMore_consumed in Hrun
    as [u2 [v [-> [Hu2 [Hu2s Hrun]]]]].
  rewrite add_sub_left, take_append in Hrun.
  apply Htail in Hrun. simpl in Hrun. subst caps'.
  exists (u1 ++ "/" ++ u2 ++ v), u1, u2, v. repeat split; assumption.
Qed.

Ltac crunch_captures :=
  repeat (cbn beta iota;
          match goal with
          | |- context [match Re.matchText ?a ?b with _ => _ end] =>
              destruct (Re.matchText a b)
          | |- context [match ?x with
                        | EmptyString => _
                        | String _ _ => _
                        end] => is_var x; destruct x
          end);
  cbn beta iota;
  intros H; try discriminate H; injection H as <-; reflexivity.

Lemma https_tail_keeps_captures (index : nat) (rest : string)
    (caps : Re.Captures) (found : nat * Re.Captures) :
  Re.matchRegex
    (Re.Then (Re.Optional (Re.Text ".git"))
             (Re.Then (Re.Optional (Re.Text "/")) Re.AtEnd))
    Re.matched index rest caps = Some found ->
  snd found = caps.
Proof.
  cbn [Re.matchRegex]. unfold Re.matched. crunch_captures.
Qed.

Lemma ssh_tail_keeps_captures (index : nat) (rest : string)
    (caps : Re.Captures) (found : nat * Re.Captures) :
  Re.matchRegex (Re.Then (Re.Optional (Re.Text ".git")) Re.AtEnd)
                Re.matched index rest caps = Some found ->
  snd found = caps.
Proof.
  cbn [Re.matchRegex]. unfold Re.matched. crunch_captures.
Qed.

Lemma replace_keeps_slash_free (r : Re.Regex) (s : string) :
  hasUnit "/" s = false -> hasUnit "/" (Re.replace r "" s) = false.
Proof.
  intros Hs. unfold Re.replace.
  destruct (Re.exec r s) as [[[start stop] caps]|]; [|exact Hs].
  now rewrite !hasUnit_append, hasUnit_take, hasUnit_slice.
Qed.

(** X19. Whenever [parseRepoUrl] returns, nothing was written to the console,
    the owner is a non-empty text without a slash, the repository name holds
    no slash, and the address consists of one of the two accepted beginnings
    followed by the owner and a slash. *)
Theorem parseRepoUrl_result_shape :
  forall url printed info,
    parseRepoUrl url = (printed, Returned info) ->
    printed = [] /\
    owner info <> "" /\ hasUnit "/" (owner info) = false /\
    hasUnit "/" (repo info) = false /\
    exists rest,
      (Re.matchText "https://github.com/" url = Some rest \/
       Re.matchText "git@github.com:" url = Some rest) /\
      Js.startsWith rest (owner info ++ "/") = true.
Proof.
  intros url printed info. unfold parseRepoUrl.
  assert (Hshape : forall start stop caps,
             (Re.exec httpsUrlPattern url = Some (start, stop, caps) \/
              Re.exec sshUrlPattern url = Some (start, stop, caps)) ->
             exists rest u1 u2 v,
               (Re.matchText "https://github.com/" url = Some rest \/
                Re.matchText "git@github.com:" url = Some rest) /\
               rest = u1 ++ "/" ++ u2 ++ v /\
               u1 <> "" /\ hasUnit "/" u1 = false /\
               u2 <> "" /\ hasUnit "/" u2 = false /\
               caps = [(2, u2); (1, u1)]).
  { intros start stop caps [H|H].
    - destruct (address_shape _ _ _ _ _ _ https_tail_keeps_captures H)
        as [rest [u1 [u2 [v [Ht Hrest]]]]].
      exists rest, u1, u2, v. split; [now left|exact Hrest].
    - destruct (address_shape _ _ _ _ _ _ ssh_tail_keeps_captures H)
        as [rest [u1 [u2 [v [Ht Hrest]]]]].
      exists rest, u1, u2, v. split; [now right|exact Hrest]. }
  assert (Hfound : forall found,
             match Re.exec httpsUrlPattern url with
             | Some _ => Re.exec httpsUrlPattern url
             | None => Re.exec sshUrlPattern url
             end = Some found ->
             Re.exec httpsUrlPattern url = Some found \/
             Re.exec sshUrlPattern url = Some found).
  { intros found. destruct (Re.exec httpsUrlPattern url); auto. }
  destruct (match Re.exec httpsUrlPattern url with
            | Some _ => Re.exec httpsUrlPattern url
            | None => Re.exec sshUrlPattern url
            end) as [[[start stop] caps]|]; [|discriminate].
  destruct (Hshape start stop caps (Hfound _ eq_refl))
    as [rest [u1 [u2 [v [Ht [-> [Hu1 [Hu1s [Hu2 [Hu2s ->]]]]]]]]]].
  cbn [Re.capture Nat.eqb].
  apply truthyString_true in Hu1 as Hu1t. apply truthyString_true in Hu2 as Hu2t.
  rewrite Hu1t, Hu2t. cbn [andb].
  intros H. injection H as <- <-. cbn [owner repo].
  split; [reflexivity|]. split; [exact Hu1|]. split; [exact Hu1s|].
  split; [now apply replace_keeps_slash_free|].
  exists (u1 ++ "/" ++ u2 ++ v). split; [exact Ht|].
  rewrite <- append_assoc. apply startsWith_append.
Qed.

Lemma parseRepoUrl_result_shape_witness :
  ([] : list string) = [] /\
  "facebook" <> "" /\ hasUnit "/" "facebook" = false /\
  hasUnit "/" "react" = false /\
  exists rest,
    (Re.matchText "https://github.com/" "HTTPS://GitHub.com/facebook/react/"
     = Some rest \/
     Re.matchText "git@github.com:" "HTTPS://GitHub.com/facebook/react/"
     = Some rest) /\
    Js.startsWith rest ("facebook" ++ "/") = true.
Proof.
  exact (parseRepoUrl_result_shape
           "HTTPS://GitHub.com/facebook/react/" []
           {| owner := "facebook"; repo := "react" |} eq_refl).
Defined.

(** X20. The group for the repository name is checked before the .git suffix
    is stripped: for a repository written as .git alone the address is
    accepted and the name returned is empty. *)
Theorem parseRepoUrl_empty_name :
  forall ownerName,
    ownerName <> "" -> hasUnit "/" ownerName = false ->
    parseRepoUrl ("https://github.com/" ++ ownerName ++ "/" ++ ".git")
    = ([], Returned {| owner := ownerName; repo := "" |}).
Proof.
  intros ownerName Ho Hos.
  assert (Hname : forall index caps, exists stop,
             Re.matchRegex
               (Re.Then (Re.Group 2 (Re.OneOrMore true notSlash))
                  (Re.Then (Re.Optional (Re.Text ".git"))
                     (Re.Then (Re.Optional (Re.Text "/")) Re.AtEnd)))
               Re.matched index ".git" caps
             = Some (stop, (2, ".git") :: caps)).
  { intros index caps. exists (S (S (S (S index)))).
    cbn [Re.matchRegex Re.matchOneOrMore].
    replace (S index - index) with 1 by lia.
    replace (S (S index) - index) with 2 by lia.
    replace (S (S (S index)) - index) with 3 by lia.
    replace (S (S (S (S index))) - index) with 4 by lia.
    reflexivity. }
  destruct (Hname (0 + String.length "https://github.com/"
                   + String.length ownerName + 1) [(1, ownerName)])
    as [stop Hstop].
  unfold parseRepoUrl, httpsUrlPattern.
  rewrite exec_anchored.
  change (Re.matchRegex (Re.Then (Re.Text "https://github.com/") ?r)
                        Re.matched 0 ?s [])
    with (match Re.matchText "https://github.com/" s with
          | Some rest' =>
              Re.matchRegex r Re.matched
                            (0 + String.length "https://github.com/") rest' []
          | None => None
          end).
  rewrite matchText_same.
  change ("/" ++ ".git") with (String "/" ".git").
  rewrite (greedy_owner_then _ _ _ Ho Hos _ _ Hstop).
  cbn [Re.capture Nat.eqb].
  apply truthyString_true in Ho. rewrite Ho. reflexivity.
Qed.

Lemma parseRepoUrl_empty_name_witness :
  parseRepoUrl ("https://github.com/" ++ "octocat" ++ "/" ++ ".git")
  = ([], Returned {| owner := "octocat"; repo := "" |}).
Proof.
  refine (parseRepoUrl_empty_name "octocat" _ eq_refl). discriminate.
Defined.

(** ** The earlier naming scheme and the current one *)

Lemma legacyFlatten_append (a b : string) :
  legacyFlatten (a ++ b) = legacyFlatten a ++ legacyFlatten b.
Proof. induction a as [|c a IH]; simpl; [reflexivity|now rewrite IH]. Qed.

Lemma legacyFlatten_clean (d : ascii) (path : string) :
  Ascii.eqb d "/" || Ascii.eqb d "\" = true ->
  hasUnit d (legacyFlatten path) = false.
Proof.
  intros Hd. induction path as [|c path IH]; simpl; [reflexivity|].
  rewrite IH, orb_false_r.
  destruct (Ascii.eqb c "/" || Ascii.eqb c "\") eqn:Hc.
  - apply orb_true_iff in Hd as [Hd|Hd]; apply Ascii.eqb_eq in Hd; now subst d.
  - destruct (Ascii.eqb c d) eqn:Hcd; [|reflexivity].
    apply Ascii.eqb_eq in Hcd. subst c. now rewrite Hd in Hc.
Qed.

(** Joining the pieces of a split with another unit replaces the separator. *)
Lemma join_split (sep rep : ascii) (s : string) :
  Js.join (String rep "") (Js.split sep s) = Js.replaceAll sep rep s.
Proof.
  unfold Js.join. induction s as [|c s IH]; [reflexivity|].
  pose proof (split_not_nil sep s) as Hne. simpl.
  destruct (Ascii.eqb c sep).
  - destruct (Js.split sep s) as [|p ps]; [contradiction|].
    change (String.concat (String rep "") ("" :: p :: ps))
      with (String rep (String.concat (String rep "") (p :: ps))).
    now rewrite IH.
  - destruct (Js.split sep s) as [|p [|q ps]]; [contradiction| |].
    + simpl in *. now rewrite IH.
    + change (String.concat (String rep "") (String c p :: q :: ps))
        with (String c (String.concat (String rep "") (p :: q :: ps))).
      now rewrite IH.
Qed.

Lemma legacyFlatten_two_steps (path : string) :
  legacyFlatten path = Js.replaceAll "/" "-" (Js.replaceAll "\" "/" path).
Proof.
  induction path as [|c path IH]; simpl; [reflexivity|]. rewrite IH. f_equal.
  destruct (Ascii.eqb c "\") eqn:Hback.
  - now rewrite orb_true_r.
  - rewrite orb_false_r. reflexivity.
Qed.

(** X21. The earlier scheme never leaves a separator in a name: the flattened
    path holds neither slash nor backslash, and the same is true of the whole
    filename when the prefix is missing or free of separators. *)
Theorem legacyFilename_no_separator :
  forall prefix path,
    (forall p, prefix = Some p ->
               hasUnit "/" p = false /\ hasUnit "\" p = false) ->
    hasUnit "/" (legacyFilename prefix path) = false /\
    hasUnit "\" (legacyFilename prefix path) = false.
Proof.
  intros prefix path Hprefix. unfold legacyFilename.
  assert (Hhead : forall d,
             Ascii.eqb d "/" || Ascii.eqb d "\" = true ->
             hasUnit d "-" = false ->
             (forall p, prefix = Some p -> hasUnit d p = false) ->
             hasUnit d (match prefix with
                        | Some p => if Js.truthyString p then p ++ "-" else ""
                        | None => ""
                        end ++ legacyFlatten path) = false).
  { intros d Hd Hdash Hp. rewrite hasUnit_append, (legacyFlatten_clean d path Hd).
    rewrite orb_false_r. destruct prefix as [p|]; [|reflexivity].
    destruct (Js.truthyString p); [|reflexivity].
    now rewrite hasUnit_append, (Hp p eq_refl). }
  split; apply Hhead; try reflexivity; intros p Hp; now apply Hprefix.
Qed.

Lemma legacyFilename_no_separator_witness :
  hasUnit "/" (legacyFilename (Some "ai") "docs/api\getting-started.mdx") = false /\
  hasUnit "\" (legacyFilename (Some "ai") "docs/api\getting-started.mdx") = false.
Proof.
  apply (legacyFilename_no_separator (Some "ai") "docs/api\getting-started.mdx").
  intros p Hp. injection Hp as <-. split; reflexivity.
Defined.

(** X22. How the two schemes relate: without a prefix and without an output
    root, the earlier name of a file below the documentation path is the
    flattened documentation path, a hyphen, and the current name; the current
    scheme leaves out the documentation path. *)
Theorem legacyFilename_versus_current :
  forall documentPath rel outputDirectory,
    hasUnit "\" documentPath = false ->
    let parts := Js.split "/" (Js.replaceAll "\" "/" rel) in
    removelast parts = [] \/
    Js.startsWith (last parts "") (folderPrefixOf (removelast parts)) = false ->
    legacyFilename None (documentPath ++ "/" ++ rel)
    = legacyFlatten documentPath ++ "-"
      ++ filename (buildOutputLocation (documentPath ++ "/" ++ rel) documentPath
                                       None outputDirectory).
Proof.
  intros documentPath rel outputDirectory Hdp parts Hcase.
  rewrite (filename_below_no_root documentPath rel outputDirectory Hdp Hcase).
  unfold legacyFilename, parts.
  change ("" ++ legacyFlatten (documentPath ++ "/" ++ rel))
    with (legacyFlatten (documentPath ++ "/" ++ rel)).
  rewrite !legacyFlatten_append. f_equal.
  change (legacyFlatten "/") with "-". f_equal.
  rewrite (join_split "/" "-"). apply legacyFlatten_two_steps.
Qed.

Lemma legacyFilename_versus_current_witness :
  legacyFilename None ("docs" ++ "/" ++ "api/getting-started.mdx")
  = legacyFlatten "docs" ++ "-"
    ++ filename (buildOutputLocation ("docs" ++ "/" ++ "api/getting-started.mdx")
                                     "docs" None "./output").
Proof.
  exact (legacyFilename_versus_current
           "docs" "api/getting-started.mdx" "./output" eq_refl
           (or_intror eq_refl)).
Defined.

(** ** The walk and the naming together *)

Lemma endsWith_trans (a b c : string) :
  Js.endsWith a b = true -> Js.endsWith b c = true -> Js.endsWith a c = true.
Proof.
  rewrite !endsWith_iff. intros [f ->] [g ->]. exists (f ++ g).
  now rewrite append_assoc.
Qed.

(** X23. Every file the walk returns is written under a name that still ends
    in .md or .mdx, whatever documentation path, output root and output
    directory it is built with, provided the entry's path ends with its name
    (as the listings of the remote service do). *)
Theorem written_files_keep_markdown_extension :
  forall getContent fuel directoryPath warned files,
    fetchAllFiles getContent fuel directoryPath = Some (warned, Returned files) ->
    forall item, In item files ->
      Js.endsWith (item_path item) (item_name item) = true ->
      forall documentPath outputRoot outputDirectory,
        let name := filename (buildOutputLocation (item_path item) documentPath
                                                  outputRoot outputDirectory) in
        Js.endsWith name ".md" = true \/ Js.endsWith name ".mdx" = true.
Proof.
  intros getContent fuel directoryPath warned files Hrun item Hin Hpath
         documentPath outputRoot outputDirectory name.
  destruct (fetchAllFiles_wellBehaved _ _ _ _ Hrun) as [_ Hfiles].
  simpl in Hfiles. rewrite Forall_forall in Hfiles.
  specialize (Hfiles item Hin). unfold isMarkdownFile in Hfiles.
  apply andb_true_iff in Hfiles as [_ Hname].
  apply orb_true_iff in Hname as [Hname|Hname]; [left|right];
    apply filename_keeps_ending; try reflexivity;
    now apply (endsWith_trans _ (item_name item)).
Qed.

Lemma written_files_keep_markdown_extension_witness :
  Js.endsWith
    (filename (buildOutputLocation "docs/api/getting-started.mdx" "docs"
                                   (computeOutputRoot "docs") "./output"))
    ".md" = true \/
  Js.endsWith
    (filename (buildOutputLocation "docs/api/getting-started.mdx" "docs"
                                   (computeOutputRoot "docs") "./output"))
    ".mdx" = true.
Proof.
  refine (written_files_keep_markdown_extension
            sampleRepository 2 "docs" ["docs/old"] _ eq_refl
            (mkItem "file" "getting-started.mdx" "docs/api/getting-started.mdx")
            _ eq_refl "docs" (computeOutputRoot "docs") "./output").
  right. left. reflexivity.
Defined.

(** ** More on [parseRepoUrl] *)

Lemma matchText_variant (t : string) :
  forall variant rest,
    Re.matchText t variant = Some "" ->
    Re.matchText t (variant ++ rest) = Some rest.
Proof.
  induction t as [|c t IH]; intros variant rest; simpl.
  - intros H. injection H as ->. reflexivity.
  - destruct variant as [|d variant]; [discriminate|]. simpl.
    destruct (Re.sameLetter c d); [apply IH|discriminate].
Qed.

Lemma sameLetter_h_not_g (c : ascii) :
  Re.sameLetter "h" c = true -> Re.sameLetter "g" c = false.
Proof. destruct c as [[] [] [] [] [] [] [] []]; simpl; intros H; now try discriminate H. Qed.

Lemma sameLetter_g_not_h (c : ascii) :
  Re.sameLetter "g" c = true -> Re.sameLetter "h" c = false.
Proof. destruct c as [[] [] [] [] [] [] [] []]; simpl; intros H; now try discriminate H. Qed.

Lemma exec_address_pattern (t : string) (r : Re.Regex) (s : string) :
  Re.exec (Re.Then Re.AtStart (Re.Then (Re.Text t) r)) s
  = match Re.matchText t s with
    | Some rest =>
        match Re.matchRegex r Re.matched (0 + String.length t) rest [] with
        | Some (stop, caps) => Some (0, stop, caps)
        | None => None
        end
    | None => None
    end.
Proof.
  rewrite exec_anchored. cbn [Re.matchRegex].
  now destruct (Re.matchText t s).
Qed.

(** X24. Scheme and host are read without regard to the case of letters: an
    address whose beginning is https://github.com/ or git@github.com: in any
    mix of upper and lower case gives the same result as the address with the
    beginning in lower case. *)
Theorem parseRepoUrl_ignores_case_of_host :
  forall variant rest,
    (Re.matchText "https://github.com/" variant = Some "" ->
     parseRepoUrl (variant ++ rest)
     = parseRepoUrl ("https://github.com/" ++ rest)) /\
    (Re.matchText "git@github.com:" variant = Some "" ->
     parseRepoUrl (variant ++ rest)
     = parseRepoUrl ("git@github.com:" ++ rest)).
Proof.
  intros variant rest. split; intros Hvariant.
  - assert (Hhttps : Re.exec httpsUrlPattern (variant ++ rest)
                     = Re.exec httpsUrlPattern ("https://github.com/" ++ rest)).
    { unfold httpsUrlPattern. rewrite !exec_address_pattern.
      now rewrite (matchText_variant _ _ _ Hvariant), matchText_same. }
    assert (Hssh : Re.exec sshUrlPattern (variant ++ rest)
                   = Re.exec sshUrlPattern ("https://github.com/" ++ rest)).
    { unfold sshUrlPattern. rewrite !exec_address_pattern.
      destruct variant as [|c variant]; [discriminate Hvariant|].
      cbn [Re.matchText] in Hvariant.
      destruct (Re.sameLetter "h" c) eqn:Hc; [|discriminate Hvariant].
      cbn [Re.matchText append]. now rewrite (sameLetter_h_not_g c Hc). }
    unfold parseRepoUrl. now rewrite Hhttps, Hssh.
  - assert (Hhttps : Re.exec httpsUrlPattern (variant ++ rest)
                     = Re.exec httpsUrlPattern ("git@github.com:" ++ rest)).
    { unfold httpsUrlPattern. rewrite !exec_address_pattern.
      destruct variant as [|c variant]; [discriminate Hvariant|].
      cbn [Re.matchText] in Hvariant.
      destruct (Re.sameLetter "g" c) eqn:Hc; [|discriminate Hvariant].
      cbn [Re.matchText append]. now rewrite (sameLetter_g_not_h c Hc). }
    assert (Hssh : Re.exec sshUrlPattern (variant ++ rest)
                   = Re.exec sshUrlPattern ("git@github.com:" ++ rest)).
    { unfold sshUrlPattern. rewrite !exec_address_pattern.
      now rewrite (matchText_variant _ _ _ Hvariant), matchText_same. }
    unfold parseRepoUrl. now rewrite Hhttps, Hssh.
Qed.

Lemma parseRepoUrl_ignores_case_of_host_witness :
  parseRepoUrl ("HTTPS://GitHub.COM/" ++ "facebook/react.git")
  = parseRepoUrl ("https://github.com/" ++ "facebook/react.git").
Proof.
  exact (proj1 (parseRepoUrl_ignores_case_of_host
                  "HTTPS://GitHub.COM/" "facebook/react.git") eq_refl).
Defined.

Ltac simplify_tail :=
  cbn [Re.matchRegex Re.matchText append Re.matched];
  rewrite ?sameLetter_slash;
  repeat match goal with
         | H : Ascii.eqb ?c "/" = false |- context [Ascii.eqb ?c "/"] =>
             rewrite H
         end;
  cbn [Ascii.eqb Bool.eqb].

Ltac crunch_more :=
  repeat (simplify_tail;
          match goal with
          | |- context [Re.sameLetter ?a ?b] =>
              tryif is_var b
              then (let E := fresh "E" in destruct (Re.sameLetter a b) eqn:E)
              else (let v := eval vm_compute in (Re.sameLetter a b) in
                    change (Re.sameLetter a b) with v)
          | |- context [match ?x with
                        | EmptyString => _
                        | String _ _ => _
                        end] => is_var x; destruct x
          end);
  simplify_tail.

(** Past the repository name the HTTPS pattern allows .git and one slash, and
    nothing after that slash. *)
Lemma https_tail_no_more (w more : string) (index : nat) (caps : Re.Captures)
    (found : nat * Re.Captures) :
  hasUnit "/" w = false ->
  Re.matchRegex
    (Re.Then (Re.Optional (Re.Text ".git"))
             (Re.Then (Re.Optional (Re.Text "/")) Re.AtEnd))
    Re.matched index (w ++ String "/" more) caps = Some found ->
  more = "".
Proof.
  intros Hslash.
  destruct w as [|c1 [|c2 [|c3 [|c4 [|c5 w]]]]];
    cbn [hasUnit] in Hslash;
    repeat (apply orb_false_iff in Hslash as [? Hslash]);
    crunch_more.
  all: cbn beta iota; intros Hfound; try discriminate Hfound; reflexivity.
Qed.

Lemma parseRepoUrl_fails_or_returns (url : string) :
  parseRepoUrl url
  = ([invalidUrlMessage], Threw (mkJsError None invalidUrlMessage)) \/
  exists info, parseRepoUrl url = ([], Returned info).
Proof.
  unfold parseRepoUrl.
  destruct (match Re.exec httpsUrlPattern url with
            | Some _ => Re.exec httpsUrlPattern url
            | None => Re.exec sshUrlPattern url
            end) as [[[start stop] caps]|]; [|now left].
  destruct (Re.capture 1 caps) as [group1|]; [|now left].
  destruct (Re.capture 2 caps) as [group2|]; [|now left].
  destruct (Js.truthyString group1 && Js.truthyString group2); [|now left].
  right. eexists; reflexivity.
Qed.

(** Two texts that agree up to their first slash. *)
Lemma split_at_first_slash (a b x y : string) :
  hasUnit "/" a = false -> hasUnit "/" b = false ->
  a ++ String "/" x = b ++ String "/" y -> a = b /\ x = y.
Proof.
  revert b. induction a as [|c a IH]; intros b Ha Hb Heq.
  - destruct b as [|d b]; simpl in *.
    + injection Heq as ->. now split.
    + injection Heq as <- _. simpl in Hb. discriminate Hb.
  - destruct b as [|d b]; simpl in *.
    + injection Heq as -> _. simpl in Ha. discriminate Ha.
    + injection Heq as <- Heq.
      apply orb_false_iff in Ha as [_ Ha]. apply orb_false_iff in Hb as [_ Hb].
      destruct (IH b Ha Hb Heq) as [-> ->]. now split.
Qed.

(** A slash-free text laid over another one followed by a slash is a part of
    it. *)
Lemma slash_free_prefix (u v name more : string) :
  hasUnit "/" u = false -> hasUnit "/" name = false ->
  u ++ v = name ++ String "/" more ->
  exists w, hasUnit "/" w = false /\ v = w ++ String "/" more.
Proof.
  revert name. induction u as [|c u IH]; intros name Hu Hname Heq.
  - exists name. split; [exact Hname|exact Heq].
  - destruct name as [|d name]; simpl in *.
    + injection Heq as -> _. simpl in Hu. discriminate Hu.
    + injection Heq as _ Heq.
      apply orb_false_iff in Hu as [_ Hu].
      apply orb_false_iff in Hname as [_ Hname].
      exact (IH name Hu Hname Heq).
Qed.

(** What is left for the end of an address pattern once both groups have
    matched. *)
Lemma address_tail (t : string) (tailPattern : Re.Regex) (url : string)
    (found : nat * nat * Re.Captures) :
  Re.exec
    (Re.Then Re.AtStart
    (Re.Then (Re.Text t)
    (Re.Then (Re.Group 1 (Re.OneOrMore false notSlash))
    (Re.Then (Re.Text "/")
    (Re.Then (Re.Group 2 (Re.OneOrMore true notSlash)) tailPattern)))))
    url = Some found ->
  exists u1 u2 v index caps ending,
    Re.matchText t url = Some (u1 ++ "/" ++ u2 ++ v) /\
    hasUnit "/" u1 = false /\ hasUnit "/" u2 = false /\
    Re.matchRegex tailPattern Re.matched index v caps = Some ending.
Proof.
  rewrite exec_anchored. cbn [Re.matchRegex].
  destruct (Re.matchText t url) as [rest|] eqn:Ht; [|discriminate].
  destruct (Re.matchOneOrMore _ _ _ _ _ _) as [ending|] eqn:Hrun;
    [|discriminate].
  intros _.
  apply matchOneOrMore_consumed in Hrun
    as [u1 [v1 [-> [_ [Hu1s Hrun]]]]].
  destruct (Re.matchText "/" v1) as [rest2|] eqn:Hslash; [|discriminate].
  apply matchText_slash in Hslash. subst v1.
  apply matchOneOrMore_consumed in Hrun
    as [u2 [v [-> [_ [Hu2s Hrun]]]]].
  exists u1, u2, v. eexists. eexists. exists ending.
  repeat split; try assumption. exact Hrun.
Qed.

Lemma parseRepoUrl_returned_matched (url : string) (info : RepoInfo) :
  parseRepoUrl url = ([], Returned info) ->
  (exists found, Re.exec httpsUrlPattern url = Some found) \/
  (exists found, Re.exec sshUrlPattern url = Some found).
Proof.
  unfold parseRepoUrl.
  destruct (Re.exec httpsUrlPattern url) as [found|]; [intros _; left; now exists found|].
  destruct (Re.exec sshUrlPattern url) as [found|]; [intros _; right; now exists found|].
  discriminate.
Qed.

(** X25. An HTTPS address that goes on after the repository name with a slash
    and anything more (a branch, a folder, a file) is refused, for every owner
    and name. *)
Theorem parseRepoUrl_rejects_deeper_paths :
  forall ownerName repoName more,
    hasUnit "/" ownerName = false -> hasUnit "/" repoName = false ->
    more <> "" ->
    parseRepoUrl ("https://github.com/" ++ ownerName ++ "/" ++ repoName
                  ++ "/" ++ more)
    = ([invalidUrlMessage], Threw (mkJsError None invalidUrlMessage)).
Proof.
  intros ownerName repoName more Ho Hr Hmore.
  destruct (parseRepoUrl_fails_or_returns
              ("https://github.com/" ++ ownerName ++ "/" ++ repoName
               ++ "/" ++ more)) as [Hfail|[info Hinfo]]; [exact Hfail|].
  exfalso. apply Hmore.
  apply parseRepoUrl_returned_matched in Hinfo as [[found Hfound]|[found Hfound]].
  - unfold httpsUrlPattern in Hfound.
    apply address_tail in Hfound
      as [u1 [u2 [v [index [caps [ending [Ht [Hu1 [Hu2 Htail]]]]]]]]].
    rewrite matchText_same in Ht. injection Ht as Ht.
    change ("/" ++ repoName ++ "/" ++ more)
      with (String "/" (repoName ++ String "/" more)) in Ht.
    change ("/" ++ u2 ++ v) with (String "/" (u2 ++ v)) in Ht.
    apply split_at_first_slash in Ht as [_ Ht]; try assumption.
    symmetry in Ht.
    apply slash_free_prefix in Ht as [w [Hw ->]]; try assumption.
    exact (https_tail_no_more _ _ _ _ _ Hw Htail).
  - unfold sshUrlPattern in Hfound. rewrite exec_address_pattern in Hfound.
    discriminate Hfound.
Qed.

Lemma parseRepoUrl_rejects_deeper_paths_witness :
  parseRepoUrl ("https://github.com/" ++ "facebook" ++ "/" ++ "react"
                ++ "/" ++ "tree/main/docs")
  = ([invalidUrlMessage], Threw (mkJsError None invalidUrlMessage)).
Proof.
  refine (parseRepoUrl_rejects_deeper_paths
            "facebook" "react" "tree/main/docs" eq_refl eq_refl _).
  discriminate.
Defined.
